(** * Bokeh documentation roles and the BokehJS bucket table

    A shallow embedding of [release/__init__.py] and of
    [bokeh/sphinxext/_internal/bokeh_roles.py].

    Python values are rendered as follows.
    - A [str] is a [string]; a character is a code point below 256.
    - An [int] is a [Z].
    - A call that may raise returns an [outcome]; [try]/[except] is a
      [match] on it.
    - A [dict] with string keys is an association list in insertion order.
    - docutils nodes are the constructors of [node]. *)

From Stdlib Require Import ZArith NArith List Bool Ascii String Lia.
From Stdlib Require Import Decimal DecimalFacts DecimalN DecimalZ DecimalString.
Import ListNotations.

Local Open Scope list_scope.
Local Open Scope string_scope.

(** ** Exceptions *)

Inductive exn : Set :=
| ValueError
| KeyError
| TypeError
| AssertionError
| FileNotFoundError
| TomlDecodeError
| IndexError.

Inductive outcome (A : Type) : Type :=
| Returns (a : A)
| Raises (e : exn).

Arguments Returns {A} a.
Arguments Raises {A} e.

Definition bind {A B : Type} (c : outcome A) (k : A -> outcome B) : outcome B :=
  match c with
  | Returns a => k a
  | Raises e => Raises e
  end.

Notation "x <- c ;; k" := (bind c (fun x => k))
  (at level 61, c at next level, right associativity).

(** ** Python built-ins *)

Module Py.

(** Characters by code point. *)
Definition chr (n : N) : ascii := ascii_of_N n.
Definition ord (c : ascii) : N := N_of_ascii c.

Definition NUL : ascii := chr 0.
Definition TAB : ascii := chr 9.
Definition LF : ascii := chr 10.
Definition CR : ascii := chr 13.
Definition SQUOTE : ascii := chr 39.
Definition DQUOTE : ascii := chr 34.
Definition BACKSLASH : ascii := chr 92.

(** [sub in s] on strings: [sub] occurs in [s] as a contiguous run. *)
Fixpoint contains (s sub : string) : bool :=
  prefix sub s ||
  match s with
  | EmptyString => false
  | String _ s' => contains s' sub
  end.

(** [c in s] for a single character. *)
Fixpoint has_char (c : ascii) (s : string) : bool :=
  match s with
  | EmptyString => false
  | String d s' => Ascii.eqb d c || has_char c s'
  end.

(** [s.lstrip(chars)]: drop leading characters that belong to [chars]. *)
Fixpoint lstrip (chars s : string) : string :=
  match s with
  | EmptyString => EmptyString
  | String c s' => if has_char c chars then lstrip chars s' else s
  end.

(** [str.lower] on one code point below 256, and on a text. *)
Definition lower_char (c : ascii) : ascii :=
  let n := ord c in
  if ((65 <=? n) && (n <=? 90)
      || (192 <=? n) && (n <=? 222) && negb (n =? 215))%N
  then chr (n + 32) else c.

Fixpoint lower (s : string) : string :=
  match s with
  | EmptyString => EmptyString
  | String c s' => String (lower_char c) (lower s')
  end.

(** [s.endswith(suffix)], as a proposition. *)
Definition endswith (s suffix : string) : Prop :=
  exists p, s = p ++ suffix.

(** [sub in s], as a proposition. *)
Definition occurs_in (sub s : string) : Prop :=
  exists p q, s = p ++ sub ++ q.

(** [os.path.join(a, b)] on a POSIX host. *)
Definition join (a b : string) : string :=
  match b with
  | String "/" _ => b
  | _ =>
      match a with
      | EmptyString => b
      | _ => if contains (substring (String.length a - 1) 1 a) "/"
             then a ++ b else a ++ "/" ++ b
      end
  end.

(** *** [int(str)] *)

(** [Py_ISSPACE]: the C-locale white space of the integer parser. *)
Definition Py_ISSPACE (c : ascii) : bool :=
  let n := ord c in
  ((9 <=? n) && (n <=? 13) || (n =? 32))%N.

(** [Py_UNICODE_ISSPACE], on code points below 256. *)
Definition Py_UNICODE_ISSPACE (c : ascii) : bool :=
  let n := ord c in
  ((9 <=? n) && (n <=? 13) || (28 <=? n) && (n <=? 32)
   || (n =? 133) || (n =? 160))%N.

Definition is_ascii (s : string) : bool :=
  forallb (fun c => (ord c <? 128)%N) (list_ascii_of_string s).

(** [_PyUnicode_TransformDecimalAndSpaceToASCII]: white space beyond ASCII
    becomes a blank; no code point from 127 to 255 is a decimal digit, so
    any other one becomes ['?'] and ends the text. *)
Fixpoint transform_chars (s : string) : string :=
  match s with
  | EmptyString => EmptyString
  | String ch s' =>
      if (ord ch <? 127)%N then String ch (transform_chars s')
      else if Py_UNICODE_ISSPACE ch then String " " (transform_chars s')
      else "?"
  end.

Definition TransformDecimalAndSpaceToASCII (s : string) : string :=
  if is_ascii s then s else transform_chars s.

Fixpoint skip_spaces (s : string) : string :=
  match s with
  | EmptyString => EmptyString
  | String c s' => if Py_ISSPACE c then skip_spaces s' else s
  end.

(** One decimal digit in front of a numeral. *)
Definition digit (c : ascii) : option (uint -> uint) :=
  match c with
  | "0" => Some D0 | "1" => Some D1 | "2" => Some D2 | "3" => Some D3
  | "4" => Some D4 | "5" => Some D5 | "6" => Some D6 | "7" => Some D7
  | "8" => Some D8 | "9" => Some D9
  | _ => None
  end%char.

(** The digit loop of [PyLong_FromString] in base 10: digits and single
    underscores between them; [prev] is the character read before.
    Gives the numeral read and the text left, or [None] on a doubled or
    trailing underscore. *)
Fixpoint scan_digits (prev : ascii) (s : string) : option (uint * string) :=
  match s with
  | EmptyString =>
      if Ascii.eqb prev "_" then None else Some (Nil, EmptyString)
  | String c s' =>
      match digit c with
      | Some d =>
          match scan_digits c s' with
          | Some (u, rest) => Some (d u, rest)
          | None => None
          end
      | None =>
          if Ascii.eqb c "_" then
            if Ascii.eqb prev "_" then None else scan_digits c s'
          else
            if Ascii.eqb prev "_" then None else Some (Nil, s)
      end
  end.

(** The guard of [sys.int_max_str_digits] ([0] switches it off; numerals of
    up to 640 digits are never refused). *)
Definition exceeds_limit (max_str_digits : N) (digits : nat) : bool :=
  ((0 <? max_str_digits) && (640 <? N.of_nat digits)
   && (max_str_digits <? N.of_nat digits))%N.

(** The numeral after the sign: no leading underscore, at least one digit,
    the digit limit, then white space up to the end. *)
Definition parse_numeral (max_str_digits : N) (negative : bool) (s : string)
  : outcome Z :=
  match s with
  | String "_" _ => Raises ValueError
  | _ =>
      match scan_digits NUL s with
      | None => Raises ValueError
      | Some (u, rest) =>
          if exceeds_limit max_str_digits (nb_digits u) then Raises ValueError
          else if Nat.eqb (nb_digits u) 0 then Raises ValueError
          else
            match skip_spaces rest with
            | EmptyString => Returns (Z.of_int (if negative then Neg u else Pos u))
            | _ => Raises ValueError
            end
      end
  end.

Definition PyLong_FromString (max_str_digits : N) (s : string) : outcome Z :=
  match skip_spaces s with
  | String "+" s' => parse_numeral max_str_digits false s'
  | String "-" s' => parse_numeral max_str_digits true s'
  | s' => parse_numeral max_str_digits false s'
  end.

(** [int(text)] for a [str] argument. *)
Definition int (max_str_digits : N) (text : string) : outcome Z :=
  PyLong_FromString max_str_digits (TransformDecimalAndSpaceToASCII text).

(** *** [str(int)] *)

Definition decimal (n : Z) : string := NilZero.string_of_int (Z.to_int n).

Definition decimal_digits (n : Z) : nat :=
  match Z.to_int n with
  | Pos d => nb_digits d
  | Neg d => nb_digits d
  end.

Definition str (max_str_digits : N) (n : Z) : outcome string :=
  if exceeds_limit max_str_digits (decimal_digits n) then Raises ValueError
  else Returns (decimal n).

(** *** [repr(str)] *)

(** [str.isprintable] on one code point below 256. *)
Definition isprintable (c : ascii) : bool :=
  let n := ord c in
  ((32 <=? n) && (n <=? 126) || (161 <=? n) && negb (n =? 173))%N.

Definition hexdigit (n : N) : ascii :=
  match n with
  | 0 => "0" | 1 => "1" | 2 => "2" | 3 => "3" | 4 => "4" | 5 => "5"
  | 6 => "6" | 7 => "7" | 8 => "8" | 9 => "9" | 10 => "a" | 11 => "b"
  | 12 => "c" | 13 => "d" | 14 => "e" | _ => "f"
  end%N%char.

Definition hex_escape (c : ascii) : string :=
  String BACKSLASH
    (String "x" (String (hexdigit (ord c / 16)) (String (hexdigit (ord c mod 16)) ""))).

Definition repr_char (quote c : ascii) : string :=
  if Ascii.eqb c quote || Ascii.eqb c BACKSLASH then String BACKSLASH (String c "")
  else if Ascii.eqb c TAB then String BACKSLASH "t"
  else if Ascii.eqb c LF then String BACKSLASH "n"
  else if Ascii.eqb c CR then String BACKSLASH "r"
  else if (ord c <? 32)%N || (ord c =? 127)%N then hex_escape c
  else if (ord c <? 127)%N then String c ""
  else if isprintable c then String c ""
  else hex_escape c.

Fixpoint repr_body (quote : ascii) (s : string) : string :=
  match s with
  | EmptyString => EmptyString
  | String c s' => repr_char quote c ++ repr_body quote s'
  end.

(** Single quotes, unless the text has a single quote and no double quote. *)
Definition repr_quote (s : string) : ascii :=
  if has_char SQUOTE s && negb (has_char DQUOTE s) then DQUOTE else SQUOTE.

Definition repr (s : string) : string :=
  let quote := repr_quote s in
  String quote (repr_body quote s ++ String quote "").

End Py.

(** ** docutils *)

Module Docutils.

(** Role options: option name to class names, in insertion order. *)
Definition dict : Type := list (string * list string).

Definition has_key (k : string) (d : dict) : bool :=
  existsb (fun kv => String.eqb (fst kv) k) d.

Definition get (k : string) (d : dict) : option (list string) :=
  option_map snd (find (fun kv => String.eqb (fst kv) k) d).

Definition del (k : string) (d : dict) : dict :=
  filter (fun kv => negb (String.eqb (fst kv) k)) d.

(** [options or {}] *)
Definition or_empty (options : option dict) : dict :=
  match options with
  | Some d => d
  | None => []
  end.

(** [docutils.parsers.rst.roles.set_classes]. The caller's mapping is
    updated in place; the updated mapping is the value here. *)
Definition set_classes (options : dict) : outcome dict :=
  match get "class" options with
  | Some classes =>
      if has_key "classes" options then Raises AssertionError
      else Returns (del "class" (options ++ [("classes", classes)])%list)
  | None => Returns options
  end.

(** [''.join(text.split(a + b))]: every occurrence of the two characters
    [a b], found from the left, is dropped. *)
Fixpoint remove_pair (a b : ascii) (text : string) : string :=
  match text with
  | EmptyString => EmptyString
  | String c t =>
      match t with
      | EmptyString => text
      | String d t' =>
          if Ascii.eqb c a && Ascii.eqb d b then remove_pair a b t'
          else String c (remove_pair a b t)
      end
  end.

(** [''.join(text.split(a))] *)
Fixpoint remove_char (a : ascii) (text : string) : string :=
  match text with
  | EmptyString => EmptyString
  | String c t =>
      if Ascii.eqb c a then remove_char a t else String c (remove_char a t)
  end.

(** [docutils.utils.unescape(text)]: the parser hands a backslash over as
    a NUL; escaped blanks, escaped newlines and the NULs left are dropped,
    in this order. *)
Definition unescape (text : string) : string :=
  remove_char Py.NUL (remove_pair Py.NUL Py.LF (remove_pair Py.NUL " " text)).

(** A system message of the reporter. *)
Record system_message : Type := {
  level : Z;
  msg_type : string;
  line : Z;
  message : string
}.

(** The value of a node attribute: a text, or a list of names. *)
Inductive attr_value : Type :=
| Scalar (s : string)
| Names (l : list string).

(** The attributes of an element, by name, in the order they were set. *)
Definition attribute_dict : Type := list (string * attr_value).

Definition attr_get (k : string) (a : attribute_dict) : option attr_value :=
  option_map snd (find (fun kv => String.eqb (fst kv) k) a).

(** [a[k] = v] *)
Fixpoint attr_set (k : string) (v : attr_value) (a : attribute_dict)
  : attribute_dict :=
  match a with
  | [] => [(k, v)]
  | (key, old) :: rest =>
      if String.eqb key k then (key, v) :: rest
      else (key, old) :: attr_set k v rest
  end.

Definition list_attributes : list string :=
  ["ids"; "classes"; "names"; "dupnames"; "backrefs"].

(** [Element.__init__] on its keyword arguments: the list attributes start
    empty; then each keyword is assigned in turn under its name in lower
    case, a later one replacing an earlier one of the same name. *)
Definition element_attributes (keywords : attribute_dict) : attribute_dict :=
  fold_left (fun a kv => attr_set (Py.lower (fst kv)) (snd kv) a) keywords
    (map (fun name => (name, Names [])) list_attributes).

#[local] Set Warnings "-register-all".

Inductive node : Type :=
| Text (data : string)
| reference (rawsource : string) (children : list node)
    (attributes : attribute_dict)
| problematic (rawsource : string) (children : list node)
    (refers_to : system_message)
| list_item (rawsource : string) (children : list node)
| bullet_list (rawsource : string) (children : list node).

(** [TextElement.__init__]: the text, unless empty, is the first child. *)
Definition text_children (text : string) : list node :=
  match text with
  | EmptyString => []
  | _ => [Text text]
  end.

(** Names bound by [TextElement.__init__] or by the call itself: a key of
    [**options] equal to one of them is a [TypeError]. *)
Definition clashes (d : dict) : bool :=
  has_key "self" d || has_key "rawsource" d || has_key "text" d
  || has_key "refuri" d.

(** The keywords of [nodes.reference(..., refuri=refuri, **options)], in
    the order of the call. *)
Definition keywords (refuri : string) (options : dict) : attribute_dict :=
  ("refuri", Scalar refuri) :: map (fun kv => (fst kv, Names (snd kv))) options.

(** [nodes.reference(rawsource, text, refuri=refuri, **options)] *)
Definition make_reference (rawsource text refuri : string) (options : dict)
  : outcome node :=
  if clashes options then Raises TypeError
  else Returns (reference rawsource (text_children text)
                  (element_attributes (keywords refuri options))).

(** [reporter.error(message, line=lineno)], the reporter recording the
    message and letting the build go on. *)
Definition reporter_error (message : string) (lineno : Z) : system_message :=
  {| level := 3; msg_type := "ERROR"; line := lineno; message := message |}.

(** [inliner.problematic(text, rawsource, message)] *)
Definition inliner_problematic (text rawsource : string)
    (message : system_message) : node :=
  problematic rawsource (text_children text) message.

(** [node += child] ([Element.__iadd__] with a node on the right). A [Text]
    is no element and is never the left operand in this module. *)
Definition iadd (n child : node) : node :=
  match n with
  | Text data => Text data
  | reference r cs a => reference r (cs ++ [child])%list a
  | problematic r cs m => problematic r (cs ++ [child])%list m
  | list_item r cs => list_item r (cs ++ [child])%list
  | bullet_list r cs => bullet_list r (cs ++ [child])%list
  end.

(** [node.astext()]: the visible text; a [Text] shows its data without
    the escapes. *)
Fixpoint astext (n : node) : string :=
  match n with
  | Text data => unescape data
  | reference _ cs _ => String.concat "" (map astext cs)
  | problematic _ cs _ => String.concat "" (map astext cs)
  | list_item _ cs => String.concat (String Py.LF (String Py.LF "")) (map astext cs)
  | bullet_list _ cs => String.concat (String Py.LF (String Py.LF "")) (map astext cs)
  end.

Definition is_reference (n : node) : bool :=
  match n with
  | reference _ _ _ => true
  | _ => false
  end.

Definition is_problematic (n : node) : bool :=
  match n with
  | problematic _ _ _ => true
  | _ => false
  end.

(** The target of a link, its [refuri] attribute; no other node has one. *)
Definition target (n : node) : option attr_value :=
  match n with
  | reference _ _ a => attr_get "refuri" a
  | _ => None
  end.

Definition count_links (ns : list node) : nat :=
  List.length (filter is_reference ns).

End Docutils.

(** ** release/__init__.py *)

Module Release.

#[local] Set Warnings "-register-all".

(** The objects of this module: a [str], a [tuple], and, for contrast, a
    [list], the sequence that can be changed in place. *)
Inductive object : Type :=
| PyStr (s : string)
| PyTuple (items : list object)
| PyList (items : list object).

Definition BOKEHJS_BUCKETS : object :=
  PyTuple [ PyTuple [PyStr "cdn.bokeh.org"; PyStr "us-east-1"];
            PyTuple [PyStr "cdn-backup.bokeh.org"; PyStr "us-west-2"] ].

(** [len(o)] *)
Definition len (o : object) : nat :=
  match o with
  | PyStr s => String.length s
  | PyTuple items => List.length items
  | PyList items => List.length items
  end.

(** The place an index names in a sequence of [n] items; a negative index
    counts from the end. *)
Definition position (n : nat) (i : Z) : option nat :=
  let j := if (i <? 0)%Z then (i + Z.of_nat n)%Z else i in
  if (0 <=? j)%Z && (j <? Z.of_nat n)%Z then Some (Z.to_nat j) else None.

(** [o[i]] *)
Definition getitem (o : object) (i : Z) : outcome object :=
  match position (len o) i with
  | None => Raises IndexError
  | Some j =>
      match o with
      | PyStr s =>
          match String.get j s with
          | Some c => Returns (PyStr (String c ""))
          | None => Raises IndexError
          end
      | PyTuple items | PyList items =>
          match nth_error items j with
          | Some item => Returns item
          | None => Raises IndexError
          end
      end
  end.

Fixpoint replace_at (j : nat) (v : object) (items : list object) : list object :=
  match items, j with
  | [], _ => []
  | _ :: rest, O => v :: rest
  | item :: rest, S j' => item :: replace_at j' v rest
  end.

Fixpoint remove_at (j : nat) (items : list object) : list object :=
  match items, j with
  | [], _ => []
  | _ :: rest, O => rest
  | item :: rest, S j' => item :: remove_at j' rest
  end.

(** A change in place: [o[i] = v] or [del o[i]]. *)
Inductive change : Type :=
| Assign (i : Z) (v : object)
| Delete (i : Z).

(** The object after a change in place: a [list] takes it, a [tuple] and
    a [str] refuse it with [TypeError]. *)
Definition apply_change (c : change) (o : object) : outcome object :=
  match o with
  | PyStr _ => Raises TypeError
  | PyTuple _ => Raises TypeError
  | PyList items =>
      match c with
      | Assign i v =>
          match position (List.length items) i with
          | Some j => Returns (PyList (replace_at j v items))
          | None => Raises IndexError
          end
      | Delete i =>
          match position (List.length items) i with
          | Some j => Returns (PyList (remove_at j items))
          | None => Raises IndexError
          end
      end
  end.

(** The change [c] made at [o[k1]...[kn]]: the object [o] afterwards. An
    item changed in place is changed inside the sequence that holds it. *)
Fixpoint change_at (path : list Z) (c : change) (o : object) : outcome object :=
  match path with
  | [] => apply_change c o
  | k :: rest =>
      inner <- getitem o k ;;
      inner' <- change_at rest c inner ;;
      Returns
        match o, position (len o) k with
        | PyTuple items, Some j => PyTuple (replace_at j inner' items)
        | PyList items, Some j => PyList (replace_at j inner' items)
        | _, _ => o
        end
  end.

(** Tuples and strings all the way down. *)
Fixpoint frozen (o : object) : bool :=
  match o with
  | PyStr _ => true
  | PyTuple items => forallb frozen items
  | PyList _ => false
  end.

End Release.

(** ** bokeh/sphinxext/_internal/bokeh_roles.py *)

Module Roles.

Import Docutils.

(** What [toml.load] finds at a path. A document keeps the two keys the
    roles read, each with the type the packaging standard gives it. *)
Record project_table : Type := {
  requires_python : option string;
  dependencies : option (list string)
}.

Record pyproject : Type := {
  project : option project_table
}.

Inductive toml_file : Type :=
| NoSuchFile
| NotToml
| Toml (document : pyproject).

(** What lies outside a call: the interpreter's digit limit and the files. *)
Record World : Type := {
  int_max_str_digits : N;
  files : string -> toml_file
}.

(** [inliner.document.settings.env.app], with [app.env.config["version"]]. *)
Record Sphinx : Type := {
  config_version : string
}.

Record Inliner : Type := {
  app_of : Sphinx
}.

(** The pair a role returns: nodes to insert and system messages. *)
Definition role_result : Type := (list node * list system_message)%type.

Definition toml_load (w : World) (path : string) : outcome pyproject :=
  match files w path with
  | NoSuchFile => Raises FileNotFoundError
  | NotToml => Raises TomlDecodeError
  | Toml document => Returns document
  end.

(** [d[key]] on a table of the document. *)
Definition getitem {A : Type} (entry : option A) : outcome A :=
  match entry with
  | Some v => Returns v
  | None => Raises KeyError
  end.

Definition BOKEH_GH : string := "https://github.com/bokeh/bokeh".

Section WithPackageConstants.

(** [REPO_TOP] comes from the package's [__init__.py]. *)
Variable REPO_TOP : string.

Definition _make_gh_link_node (app : Sphinx) (rawtext role kind api_type id : string)
    (options : option dict) : outcome node :=
  let url := BOKEH_GH ++ "/" ++ api_type ++ "/" ++ id in
  let options := or_empty options in
  options <- set_classes options ;;
  make_reference rawtext (kind ++ unescape id) url options.

Definition bokeh_commit (w : World) (name rawtext text : string) (lineno : Z)
    (inliner : Inliner) (options : option dict) (content : option (list string))
  : outcome role_result :=
  let app := app_of inliner in
  node <- _make_gh_link_node app rawtext "commit" "commit " "commit" text options ;;
  Returns ([node], []).

Definition bokeh_issue (w : World) (name rawtext text : string) (lineno : Z)
    (inliner : Inliner) (options : option dict) (content : option (list string))
  : outcome role_result :=
  let app := app_of inliner in
  match (issue_num <- Py.int (int_max_str_digits w) text ;;
         if (issue_num <=? 0)%Z then Raises ValueError else Returns issue_num) with
  | Raises ValueError =>
      let msg := reporter_error
        ("Github issue number must be a number greater than or equal to 1; "
         ++ Py.repr text ++ " is invalid.") lineno in
      let prb := inliner_problematic rawtext rawtext msg in
      Returns ([prb], [msg])
  | Raises e => Raises e
  | Returns issue_num =>
      id <- Py.str (int_max_str_digits w) issue_num ;;
      node <- _make_gh_link_node app rawtext "issue" "#" "issues" id options ;;
      Returns ([node], [])
  end.

Definition bokeh_minpy (w : World) (name rawtext text : string) (lineno : Z)
    (inliner : Inliner) (options : option dict) (content : option (list string))
  : outcome role_result :=
  pyproject <- toml_load w (Py.join REPO_TOP "pyproject.toml") ;;
  table <- getitem (project pyproject) ;;
  requires <- getitem (requires_python table) ;;
  let node := Text (Py.lstrip ">=" requires) in
  Returns ([node], []).

Definition bokeh_pull (w : World) (name rawtext text : string) (lineno : Z)
    (inliner : Inliner) (options : option dict) (content : option (list string))
  : outcome role_result :=
  let app := app_of inliner in
  match (issue_num <- Py.int (int_max_str_digits w) text ;;
         if (issue_num <=? 0)%Z then Raises ValueError else Returns issue_num) with
  | Raises ValueError =>
      let msg := reporter_error
        ("Github pull request number must be a number greater than or equal to 1; "
         ++ Py.repr text ++ " is invalid.") lineno in
      let prb := inliner_problematic rawtext rawtext msg in
      Returns ([prb], [msg])
  | Raises e => Raises e
  | Returns issue_num =>
      id <- Py.str (int_max_str_digits w) issue_num ;;
      node <- _make_gh_link_node app rawtext "pull" "pull request " "pull" id options ;;
      Returns ([node], [])
  end.

Definition bokeh_requires (w : World) (name rawtext text : string) (lineno : Z)
    (inliner : Inliner) (options : option dict) (content : option (list string))
  : outcome role_result :=
  pyproject <- toml_load w (Py.join REPO_TOP "pyproject.toml") ;;
  table <- getitem (project pyproject) ;;
  deps <- getitem (dependencies table) ;;
  let node := bullet_list "" [] in
  let node := fold_left (fun node dep => iadd node (list_item "" [Text dep])) deps node in
  Returns ([node], []).

Definition bokeh_tree (w : World) (name rawtext text : string) (lineno : Z)
    (inliner : Inliner) (options : option dict) (content : option (list string))
  : outcome role_result :=
  let app := app_of inliner in
  let tag := config_version app in
  let tag := if Py.contains tag "-" then "main" else tag in
  let url := BOKEH_GH ++ "/tree/" ++ tag ++ "/" ++ text in
  let options := or_empty options in
  options <- set_classes options ;;
  node <- make_reference rawtext text url options ;;
  Returns ([node], []).

End WithPackageConstants.

(** A role as the application keeps it. *)
Definition role_fn : Type :=
  World -> string -> string -> string -> Z -> Inliner -> option dict ->
  option (list string) -> outcome role_result.

(** The roles an application knows, by name, in the order of their first
    registration. *)
Definition registry : Type := list (string * role_fn).

(** The role registered under a name, if any. *)
Fixpoint find_role (name : string) (app : registry) : option role_fn :=
  match app with
  | [] => None
  | (k, role) :: rest =>
      if String.eqb k name then Some role else find_role name rest
  end.

(** [app.add_role(name, role)]: the role is kept under the name; a role
    already kept under this name gives way to the new one. *)
Fixpoint add_role (name : string) (role : role_fn) (app : registry) : registry :=
  match app with
  | [] => [(name, role)]
  | (k, old) :: rest =>
      if String.eqb k name then (k, role) :: rest
      else (k, old) :: add_role name role rest
  end.

Section Registration.

Variable REPO_TOP : string.

(** [PARALLEL_SAFE] comes from the package's [__init__.py]. *)
Variable ParallelSafe : Type.
Variable PARALLEL_SAFE : ParallelSafe.

(** The application after the calls, and the value returned. *)
Definition setup (app : registry) : registry * ParallelSafe :=
  let app := add_role "bokeh-commit" bokeh_commit app in
  let app := add_role "bokeh-issue" bokeh_issue app in
  let app := add_role "bokeh-minpy" (bokeh_minpy REPO_TOP) app in
  let app := add_role "bokeh-pull" bokeh_pull app in
  let app := add_role "bokeh-requires" (bokeh_requires REPO_TOP) app in
  let app := add_role "bokeh-tree" bokeh_tree app in
  (app, PARALLEL_SAFE).

End Registration.

End Roles.

(** ** The fragment as a whole *)

Module Fragment.

Import Docutils Roles.

(** What the fragment's code can reach and change: the names bound in the
    module [release], the roles the application knows, and the world. *)
Record program : Type := {
  release_globals : list (string * Release.object);
  application : registry;
  world : World
}.

Definition global (name : string) (p : program) : option Release.object :=
  option_map snd (find (fun kv => String.eqb (fst kv) name) (release_globals p)).

(** [name = value] at the top of a module. *)
Fixpoint bind_global (name : string) (value : Release.object)
    (globals : list (string * Release.object)) : list (string * Release.object) :=
  match globals with
  | [] => [(name, value)]
  | (k, old) :: rest =>
      if String.eqb k name then (k, value) :: rest
      else (k, old) :: bind_global name value rest
  end.

Inductive role_id : Type :=
| Commit | Issue | Minpy | Pull | Requires | Tree.

(** What the fragment can be made to do: run the body of
    [release/__init__.py], run [setup], call a role. *)
Inductive operation : Type :=
| ImportRelease
| Setup
| Call (role : role_id) (name rawtext text : string) (lineno : Z)
    (inliner : Inliner) (options : option dict) (content : option (list string)).

Section Steps.

Variable REPO_TOP : string.
Variable ParallelSafe : Type.
Variable PARALLEL_SAFE : ParallelSafe.

Definition handler (role : role_id) : role_fn :=
  match role with
  | Commit => bokeh_commit
  | Issue => bokeh_issue
  | Minpy => bokeh_minpy REPO_TOP
  | Pull => bokeh_pull
  | Requires => bokeh_requires REPO_TOP
  | Tree => bokeh_tree
  end.

(** One operation: the program afterwards, and what a role call gave. *)
Definition step (op : operation) (p : program)
  : program * option (outcome role_result) :=
  match op with
  | ImportRelease =>
      ({| release_globals :=
            bind_global "BOKEHJS_BUCKETS" Release.BOKEHJS_BUCKETS (release_globals p);
          application := application p;
          world := world p |}, None)
  | Setup =>
      ({| release_globals := release_globals p;
          application := fst (setup REPO_TOP ParallelSafe PARALLEL_SAFE (application p));
          world := world p |}, None)
  | Call role name rawtext text lineno inliner options content =>
      (p, Some (handler role (world p) name rawtext text lineno inliner options
                  content))
  end.

(** Operations one after another. *)
Definition run (ops : list operation) (p : program) : program :=
  fold_left (fun p op => fst (step op p)) ops p.

End Steps.

End Fragment.

(** ** Vocabulary of the statements *)

Module Contract.

Import Docutils Roles.

(** Options with which the call of the node constructor does not raise:
    no key is the name of a parameter of the call, and [class] and
    [classes] do not come together. *)
Definition accepted (options : option dict) : bool :=
  let d := or_empty options in
  negb (clashes d) && negb (has_key "class" d && has_key "classes" d).

(** Some key is the name [k] once in lower case. *)
Definition spelled (k : string) (d : dict) : bool :=
  existsb (fun kv => String.eqb (Py.lower (fst kv)) k) d.

(** No option is named [refuri] in any letter case, so none takes the
    place of the target. *)
Definition keeps_refuri (options : option dict) : bool :=
  negb (spelled "refuri" (or_empty options)).

(** Every option name is in lower case. *)
Definition lower_case_keys (options : option dict) : bool :=
  forallb (fun kv => String.eqb (Py.lower (fst kv)) (fst kv)) (or_empty options).

(** A text [repr] only wraps in quotes: printable, no backslash, and not
    both kinds of quote. *)
Definition verbatim (t : string) : bool :=
  forallb (fun c => Py.isprintable c && negb (Ascii.eqb c Py.BACKSLASH))
    (list_ascii_of_string t)
  && negb (Py.has_char Py.SQUOTE t && Py.has_char Py.DQUOTE t).

(** The characters the version specifiers' comparison operators are made
    of ([<], [<=], [>], [>=], [==], [!=], [~=], [===]). *)
Definition comparison_operator_characters : string := "<>=!~".

(** The link of section 4.1 in the specification's words: visible text
    [kind + identifier], target [base/api_type/id]. *)
Definition spec_link_node (base rawtext kind api_type id : string)
    (options : option dict) : outcome node :=
  options <- set_classes (or_empty options) ;;
  make_reference rawtext (kind ++ id) (base ++ "/" ++ api_type ++ "/" ++ id) options.

(** The numeric-id role of sections 4.3 and 4.4 in the specification's
    words: parse as an integer; fail if not parseable or not positive; on
    failure one error message naming the offending text and a problematic
    marker; on success one link whose identifier is the integer
    restringified. [noun] names the resource in the message. *)
Definition spec_numeric_id_role (noun kind api_type : string)
    (w : World) (name rawtext text : string) (lineno : Z)
    (inliner : Inliner) (options : option dict) (content : option (list string))
  : outcome role_result :=
  let failure :=
    let msg := reporter_error
      ("Github " ++ noun ++ " number must be a number greater than or equal to 1; "
       ++ Py.repr text ++ " is invalid.") lineno in
    Returns ([inliner_problematic rawtext rawtext msg], [msg]) in
  match Py.int (int_max_str_digits w) text with
  | Returns n =>
      if (0 <? n)%Z then
        id <- Py.str (int_max_str_digits w) n ;;
        node <- spec_link_node BOKEH_GH rawtext kind api_type id options ;;
        Returns ([node], [])
      else failure
  | Raises _ => failure
  end.

(** The two shapes a numeric-id role returns: one link and no message, or
    one problematic marker and one message. *)
Definition link_or_report (r : outcome role_result) : Prop :=
  (exists node, r = Returns ([node], []) /\ is_reference node = true)
  \/ (exists prb msg, r = Returns ([prb], [msg]) /\ is_problematic prb = true
                      /\ count_links [prb] = 0).

(** The texts of the two error messages. *)
Definition issue_message (text : string) : string :=
  "Github issue number must be a number greater than or equal to 1; "
  ++ Py.repr text ++ " is invalid.".

Definition pull_message (text : string) : string :=
  "Github pull request number must be a number greater than or equal to 1; "
  ++ Py.repr text ++ " is invalid.".

(** The names [setup] registers. *)
Definition role_names : list string :=
  ["bokeh-commit"; "bokeh-issue"; "bokeh-minpy"; "bokeh-pull";
   "bokeh-requires"; "bokeh-tree"].

(** The attributes of a reference. *)
Definition attributes_of (n : node) : attribute_dict :=
  match n with
  | reference _ _ attributes => attributes
  | _ => []
  end.

(** A numeral of [digits] ones. *)
Definition ones (digits : nat) : uint := Nat.iter digits D1 Nil.

(** A world whose files are those of [w], with another digit limit. *)
Definition with_limit (limit : N) (w : World) : World :=
  {| int_max_str_digits := limit; files := files w |}.

(** A world for examples: the default digit limit and a descriptor at
    [/repo/pyproject.toml]. *)
Definition example_world (requires : string) (deps : list string) : World :=
  {| int_max_str_digits := 4300;
     files := fun path =>
       if String.eqb path "/repo/pyproject.toml"
       then Toml {| project := Some {| requires_python := Some requires;
                                       dependencies := Some deps |} |}
       else NoSuchFile |}.

Definition example_inliner (version : string) : Inliner :=
  {| app_of := {| config_version := version |} |}.

End Contract.

(** * Facts *)

Import Docutils Roles Contract.

(** ** Strings *)

Lemma append_assoc (a b c : string) : (a ++ b) ++ c = a ++ (b ++ c).
Proof.
  induction a as [|x a IH]; simpl; [reflexivity|].
  now rewrite IH.
Qed.

Lemma append_empty_r (a : string) : a ++ "" = a.
Proof.
  induction a as [|x a IH]; simpl; [reflexivity|].
  now rewrite IH.
Qed.

Lemma prefix_iff (p s : string) : prefix p s = true <-> exists q, s = p ++ q.
Proof.
  revert s; induction p as [|x p IH]; intros s.
  - destruct s; simpl; split; intros; eauto.
  - destruct s as [|y s]; simpl.
    + split; [discriminate|]. intros [q Hq]. discriminate.
    + destruct (ascii_dec x y) as [->|Hne].
      * rewrite IH. split; intros [q Hq]; exists q; congruence.
      * split; [discriminate|]. intros [q Hq]. congruence.
Qed.

Lemma contains_iff (s sub : string) :
  Py.contains s sub = true <-> Py.occurs_in sub s.
Proof.
  unfold Py.occurs_in.
  induction s as [|x s IH]; cbn [Py.contains].
  - rewrite orb_false_r, prefix_iff. split.
    + intros [q Hq]. exists "", q. exact Hq.
    + intros (p & q & Hpq). destruct p; simpl in Hpq; [eauto|discriminate].
  - rewrite orb_true_iff, IH, prefix_iff. split.
    + intros [[q Hq]|(p & q & Hpq)].
      * exists "", q. exact Hq.
      * exists (String x p), q. simpl. now rewrite Hpq.
    + intros (p & q & Hpq). destruct p as [|y p]; simpl in Hpq.
      * left. eauto.
      * right. exists p, q. congruence.
Qed.

Lemma occurs_in_append (sub a b c : string) :
  Py.occurs_in sub b -> Py.occurs_in sub (a ++ b ++ c).
Proof.
  intros (p & q & ->). exists (a ++ p), (q ++ c).
  now rewrite !append_assoc.
Qed.

Lemma has_char_In (c : ascii) (s : string) :
  Py.has_char c s = true <-> In c (list_ascii_of_string s).
Proof.
  induction s as [|d s IH]; simpl.
  - split; [discriminate|tauto].
  - rewrite orb_true_iff, IH, Ascii.eqb_eq. tauto.
Qed.

Lemma contains_char (c : ascii) (s : string) :
  Py.contains s (String c "") = Py.has_char c s.
Proof.
  induction s as [|d s IH]; simpl; [reflexivity|].
  rewrite IH. destruct (ascii_dec c d) as [->|Hne].
  - rewrite Ascii.eqb_refl. now destruct s.
  - apply not_eq_sym in Hne. apply Ascii.eqb_neq in Hne. now rewrite Hne.
Qed.

(** ** [unescape] *)

Lemma remove_pair_absent (a b : ascii) (t : string) :
  Py.has_char a t = false -> remove_pair a b t = t.
Proof.
  induction t as [|c t IH]; intros H; [reflexivity|].
  cbn [Py.has_char] in H. apply orb_false_iff in H as [Hc Ht].
  cbn [remove_pair]. destruct t as [|d t']; [reflexivity|].
  rewrite Hc. cbn [andb]. now rewrite (IH Ht).
Qed.

Lemma remove_char_absent (a : ascii) (t : string) :
  Py.has_char a t = false -> remove_char a t = t.
Proof.
  induction t as [|c t IH]; intros H; [reflexivity|].
  cbn [Py.has_char] in H. apply orb_false_iff in H as [Hc Ht].
  cbn [remove_char]. now rewrite Hc, (IH Ht).
Qed.

Lemma unescape_without_nul (t : string) :
  Py.has_char Py.NUL t = false -> unescape t = t.
Proof.
  intros H. unfold unescape.
  rewrite (remove_pair_absent _ _ t H), (remove_pair_absent _ _ t H).
  exact (remove_char_absent _ t H).
Qed.

(** ** Decimal numerals *)

Lemma uint_string_without_nul (d : uint) :
  Py.has_char Py.NUL (NilEmpty.string_of_uint d) = false.
Proof. induction d; simpl; auto. Qed.

Lemma decimal_without_nul (n : Z) : Py.has_char Py.NUL (Py.decimal n) = false.
Proof.
  unfold Py.decimal, NilZero.string_of_int, NilZero.string_of_uint.
  destruct (Z.to_int n) as [d|d]; destruct d;
    try reflexivity; apply uint_string_without_nul.
Qed.

Lemma unescape_decimal (n : Z) : unescape (Py.decimal n) = Py.decimal n.
Proof. apply unescape_without_nul, decimal_without_nul. Qed.

Lemma nb_digits_norm (negative : bool) (u : uint) :
  nb_digits u <> 0 ->
  Py.decimal_digits (Z.of_int (if negative then Neg u else Pos u)) <= nb_digits u.
Proof.
  intros Hu. unfold Py.decimal_digits. rewrite DecimalZ.to_of.
  destruct negative; cbn [norm].
  - pose proof (nb_digits_nzhead u) as Hle.
    destruct (nzhead u); simpl in *; lia.
  - apply nb_digits_unorm. now apply nb_digits_n0.
Qed.

Lemma exceeds_limit_mono (m : N) (d d' : nat) :
  d' <= d -> Py.exceeds_limit m d = false -> Py.exceeds_limit m d' = false.
Proof.
  unfold Py.exceeds_limit. intros Hle H.
  destruct (0 <? m)%N; cbn [andb] in *; [|reflexivity].
  apply andb_false_iff in H. apply andb_false_iff.
  destruct H as [H|H]; [left|right]; apply N.ltb_ge in H; apply N.ltb_ge; lia.
Qed.

(** ** [int] *)

(** What a successful parse tells: a sign and a numeral within the limit. *)
Lemma parse_numeral_returns (m : N) (negative : bool) (s : string) (n : Z) :
  Py.parse_numeral m negative s = Returns n ->
  exists u,
    Py.exceeds_limit m (nb_digits u) = false /\ nb_digits u <> 0 /\
    n = Z.of_int (if negative then Neg u else Pos u).
Proof.
  intros H.
  assert (Hscan : exists u rest,
            (if Py.exceeds_limit m (nb_digits u) then Raises ValueError
             else if Nat.eqb (nb_digits u) 0 then Raises ValueError
             else match Py.skip_spaces rest with
                  | EmptyString => Returns (Z.of_int (if negative then Neg u else Pos u))
                  | _ => Raises ValueError
                  end) = Returns n).
  { unfold Py.parse_numeral in H.
    destruct (Py.scan_digits Py.NUL s) as [[u rest]|] eqn:E.
    - exists u, rest.
      destruct s as [|c s']; [exact H|].
      destruct c as [[|] [|] [|] [|] [|] [|] [|] [|]]; (exact H || discriminate H).
    - destruct s as [|c s']; [discriminate H|].
      destruct c as [[|] [|] [|] [|] [|] [|] [|] [|]]; discriminate H. }
  destruct Hscan as (u & rest & Hres).
  exists u.
  destruct (Py.exceeds_limit m (nb_digits u)); [discriminate|].
  destruct (Nat.eqb (nb_digits u) 0) eqn:E0; [discriminate|].
  apply Nat.eqb_neq in E0.
  destruct (Py.skip_spaces rest); [|discriminate].
  injection Hres as <-. auto.
Qed.

Lemma parse_numeral_raises (m : N) (negative : bool) (s : string) (e : exn) :
  Py.parse_numeral m negative s = Raises e -> e = ValueError.
Proof.
  unfold Py.parse_numeral. intros H.
  assert (Hgen :
     match Py.scan_digits Py.NUL s with
     | None => Raises ValueError
     | Some (u, rest) =>
         if Py.exceeds_limit m (nb_digits u) then Raises ValueError
         else if Nat.eqb (nb_digits u) 0 then Raises ValueError
         else match Py.skip_spaces rest with
              | EmptyString => Returns (Z.of_int (if negative then Neg u else Pos u))
              | _ => Raises ValueError
              end
     end = Raises e -> e = ValueError).
  { destruct (Py.scan_digits Py.NUL s) as [[u rest]|]; [|congruence].
    destruct (Py.exceeds_limit m (nb_digits u)); [congruence|].
    destruct (Nat.eqb (nb_digits u) 0); [congruence|].
    destruct (Py.skip_spaces rest); congruence. }
  destruct s as [|c s']; [auto|].
  destruct c as [[|] [|] [|] [|] [|] [|] [|] [|]]; auto; congruence.
Qed.

Lemma PyLong_FromString_returns (m : N) (s : string) (n : Z) :
  Py.PyLong_FromString m s = Returns n ->
  exists (negative : bool) u,
    Py.exceeds_limit m (nb_digits u) = false /\ nb_digits u <> 0 /\
    n = Z.of_int (if negative then Neg u else Pos u).
Proof.
  unfold Py.PyLong_FromString.
  destruct (Py.skip_spaces s) as [|c s'].
  - intros H. exists false. exact (parse_numeral_returns _ false _ _ H).
  - destruct c as [[|] [|] [|] [|] [|] [|] [|] [|]]; intros H;
      (exists false; exact (parse_numeral_returns _ false _ _ H))
      || (exists true; exact (parse_numeral_returns _ true _ _ H)).
Qed.

Lemma PyLong_FromString_raises (m : N) (s : string) (e : exn) :
  Py.PyLong_FromString m s = Raises e -> e = ValueError.
Proof.
  unfold Py.PyLong_FromString.
  destruct (Py.skip_spaces s) as [|c s'].
  - apply parse_numeral_raises.
  - destruct c as [[|] [|] [|] [|] [|] [|] [|] [|]]; apply parse_numeral_raises.
Qed.

Lemma int_raises (m : N) (t : string) (e : exn) :
  Py.int m t = Raises e -> e = ValueError.
Proof. apply PyLong_FromString_raises. Qed.

(** A number [int] gave is printed by [str]: the limit that let the
    numeral in lets its normal form out. *)
Lemma str_after_int (m : N) (t : string) (n : Z) :
  Py.int m t = Returns n -> Py.str m n = Returns (Py.decimal n).
Proof.
  intros H. apply PyLong_FromString_returns in H
    as (negative & u & Hlim & Hu & ->).
  unfold Py.str.
  now rewrite (exceeds_limit_mono m _ _ (nb_digits_norm negative u Hu) Hlim).
Qed.

(** The numeral [str] prints reads back as the number. *)
Lemma scan_digits_numeral (prev : ascii) (d : uint) :
  Ascii.eqb prev "_" = false ->
  Py.scan_digits prev (NilEmpty.string_of_uint d) = Some (d, "").
Proof.
  revert prev. induction d; intros prev Hprev;
    cbn [NilEmpty.string_of_uint Py.scan_digits Py.digit];
    try (rewrite IHd by reflexivity; reflexivity).
  now rewrite Hprev.
Qed.

Lemma parse_numeral_numeral (m : N) (d : uint) :
  nb_digits d <> 0 -> Py.exceeds_limit m (nb_digits d) = false ->
  Py.parse_numeral m false (NilEmpty.string_of_uint d) = Returns (Z.of_int (Pos d)).
Proof.
  intros Hd Hlim.
  assert (Hbody :
    match Py.scan_digits Py.NUL (NilEmpty.string_of_uint d) with
    | None => Raises ValueError
    | Some (u, rest) =>
        if Py.exceeds_limit m (nb_digits u) then Raises ValueError
        else if Nat.eqb (nb_digits u) 0 then Raises ValueError
        else match Py.skip_spaces rest with
             | EmptyString => Returns (Z.of_int (Pos u))
             | _ => Raises ValueError
             end
    end = Returns (Z.of_int (Pos d))).
  { rewrite scan_digits_numeral by reflexivity. rewrite Hlim.
    apply Nat.eqb_neq in Hd. now rewrite Hd. }
  destruct d; exact Hbody.
Qed.

Lemma is_ascii_numeral (d : uint) :
  Py.is_ascii (NilEmpty.string_of_uint d) = true.
Proof. unfold Py.is_ascii. induction d; cbn; auto. Qed.

Lemma int_numeral (m : N) (d : uint) :
  nb_digits d <> 0 -> Py.exceeds_limit m (nb_digits d) = false ->
  Py.int m (NilEmpty.string_of_uint d) = Returns (Z.of_int (Pos d)).
Proof.
  intros Hd Hlim. unfold Py.int, Py.TransformDecimalAndSpaceToASCII.
  rewrite is_ascii_numeral. unfold Py.PyLong_FromString.
  pose proof (parse_numeral_numeral m d Hd Hlim) as H.
  destruct d; exact H.
Qed.


(** ** [repr] *)

Lemma repr_char_copies (quote c : ascii) :
  Py.isprintable c = true -> Ascii.eqb c Py.BACKSLASH = false ->
  Ascii.eqb c quote = false -> Py.repr_char quote c = String c "".
Proof.
  intros Hp Hb Hq. unfold Py.repr_char. rewrite Hq. clear Hq.
  destruct c as [[|] [|] [|] [|] [|] [|] [|] [|]];
    try discriminate Hp; try discriminate Hb; reflexivity.
Qed.

Lemma repr_body_copies (quote : ascii) (t : string) :
  forallb (fun c => Py.isprintable c && negb (Ascii.eqb c Py.BACKSLASH))
    (list_ascii_of_string t) = true ->
  Py.has_char quote t = false -> Py.repr_body quote t = t.
Proof.
  induction t as [|c t IH]; intros Hall Hq; [reflexivity|].
  cbn [list_ascii_of_string forallb] in Hall.
  apply andb_true_iff in Hall as [Hc Hall].
  apply andb_true_iff in Hc as [Hp Hb]. apply negb_true_iff in Hb.
  cbn [Py.has_char] in Hq. apply orb_false_iff in Hq as [Hcq Hq].
  cbn [Py.repr_body]. rewrite (repr_char_copies _ _ Hp Hb Hcq), (IH Hall Hq).
  reflexivity.
Qed.

Lemma repr_quote_absent (t : string) :
  Py.has_char Py.SQUOTE t && Py.has_char Py.DQUOTE t = false ->
  Py.has_char (Py.repr_quote t) t = false.
Proof.
  unfold Py.repr_quote.
  destruct (Py.has_char Py.SQUOTE t) eqn:Es, (Py.has_char Py.DQUOTE t) eqn:Ed;
    cbn; auto; discriminate.
Qed.

Lemma repr_verbatim (t : string) :
  verbatim t = true ->
  Py.repr t = String (Py.repr_quote t) (t ++ String (Py.repr_quote t) "").
Proof.
  unfold verbatim. intros H. apply andb_true_iff in H as [Hall Hq].
  apply negb_true_iff in Hq. unfold Py.repr.
  now rewrite (repr_body_copies _ _ Hall (repr_quote_absent _ Hq)).
Qed.

Lemma repr_shows_verbatim (t : string) :
  verbatim t = true -> Py.occurs_in t (Py.repr t).
Proof.
  intros H. rewrite (repr_verbatim t H).
  exists (String (Py.repr_quote t) ""), (String (Py.repr_quote t) "").
  reflexivity.
Qed.

(** ** Options *)

Lemma has_key_app (k : string) (d e : dict) :
  has_key k (d ++ e)%list = has_key k d || has_key k e.
Proof. apply existsb_app. Qed.

Lemma has_key_del (k k' : string) (d : dict) :
  String.eqb k' k = false -> has_key k (del k' d) = has_key k d.
Proof.
  intros Hk. unfold has_key, del.
  induction d as [|[key v] d IH]; [reflexivity|].
  cbn [filter existsb fst]. destruct (String.eqb key k') eqn:E.
  - apply String.eqb_eq in E. subst key. cbn [negb]. now rewrite Hk, IH.
  - cbn [negb existsb fst]. now rewrite IH.
Qed.

Lemma get_has_key (k : string) (d : dict) :
  has_key k d = match get k d with Some _ => true | None => false end.
Proof.
  unfold has_key, get.
  induction d as [|[key v] d IH]; [reflexivity|].
  cbn [existsb find fst]. destruct (String.eqb key k); [reflexivity|exact IH].
Qed.

Lemma spelled_del (k k' : string) (d : dict) :
  String.eqb (Py.lower k') k = false -> spelled k (del k' d) = spelled k d.
Proof.
  intros Hk. unfold spelled, del.
  induction d as [|[key v] d IH]; [reflexivity|].
  cbn [filter existsb fst]. destruct (String.eqb key k') eqn:E.
  - apply String.eqb_eq in E. subst key. cbn [negb]. now rewrite Hk, IH.
  - cbn [negb existsb fst]. now rewrite IH.
Qed.

Lemma spelled_app (k : string) (d e : dict) :
  spelled k (d ++ e)%list = spelled k d || spelled k e.
Proof. apply existsb_app. Qed.

Lemma attr_get_set_same (k : string) (v : attr_value) (a : attribute_dict) :
  attr_get k (attr_set k v a) = Some v.
Proof.
  unfold attr_get. induction a as [|[key old] a IH]; cbn [attr_set find fst].
  - now rewrite String.eqb_refl.
  - destruct (String.eqb key k) eqn:E; cbn [find fst]; rewrite E;
      [reflexivity | exact IH].
Qed.

Lemma attr_get_set_other (k k' : string) (v : attr_value) (a : attribute_dict) :
  String.eqb k k' = false -> attr_get k' (attr_set k v a) = attr_get k' a.
Proof.
  intros Hne. unfold attr_get.
  induction a as [|[key old] a IH]; cbn [attr_set find fst].
  - now rewrite Hne.
  - destruct (String.eqb key k) eqn:E; cbn [find fst].
    + apply String.eqb_eq in E. subst key. now rewrite Hne.
    + destruct (String.eqb key k'); [reflexivity | exact IH].
Qed.

(** Keywords whose names are not [k] in any letter case leave the
    attribute [k] as it is. *)
Lemma assign_keywords_other (k : string) (keywords a : attribute_dict) :
  existsb (fun kv => String.eqb (Py.lower (fst kv)) k) keywords = false ->
  attr_get k (fold_left (fun a kv => attr_set (Py.lower (fst kv)) (snd kv) a)
                keywords a)
  = attr_get k a.
Proof.
  revert a. induction keywords as [|[key v] keywords IH]; intros a H;
    [reflexivity|].
  cbn [existsb fst] in H. apply orb_false_iff in H as [Hk H].
  cbn [fold_left fst snd]. rewrite (IH _ H).
  now apply attr_get_set_other.
Qed.

(** The last keyword named [k] in some letter case gives the attribute
    [k] its value. *)
Lemma assign_keywords_last (k key : string) (v : attr_value)
    (before after a : attribute_dict) :
  Py.lower key = k ->
  existsb (fun kv => String.eqb (Py.lower (fst kv)) k) after = false ->
  attr_get k (fold_left (fun a kv => attr_set (Py.lower (fst kv)) (snd kv) a)
                (before ++ (key, v) :: after)%list a)
  = Some v.
Proof.
  intros Hkey Hafter. rewrite fold_left_app. cbn [fold_left fst snd].
  rewrite (assign_keywords_other _ _ _ Hafter), Hkey.
  apply attr_get_set_same.
Qed.

Lemma spelled_keywords (k : string) (d : dict) :
  existsb (fun kv => String.eqb (Py.lower (fst kv)) k)
    (map (fun kv => (fst kv, Names (snd kv))) d)
  = spelled k d.
Proof.
  unfold spelled. induction d as [|[key v] d IH]; [reflexivity|].
  cbn [map existsb fst]. now rewrite IH.
Qed.

Lemma target_kept (refuri : string) (d : dict) :
  spelled "refuri" d = false ->
  attr_get "refuri" (element_attributes (keywords refuri d))
  = Some (Scalar refuri).
Proof.
  intros H. unfold element_attributes, keywords.
  apply (assign_keywords_last "refuri" "refuri" (Scalar refuri) []);
    [reflexivity|].
  now rewrite spelled_keywords.
Qed.

Lemma set_classes_accepted (options : option dict) :
  accepted options = true ->
  exists attrs, set_classes (or_empty options) = Returns attrs /\
                clashes attrs = false /\
                spelled "refuri" attrs = spelled "refuri" (or_empty options).
Proof.
  unfold accepted. set (d := or_empty options). intros H.
  apply andb_true_iff in H as [Hc Hb].
  apply negb_true_iff in Hc. apply negb_true_iff in Hb.
  unfold set_classes. rewrite get_has_key in Hb.
  destruct (get "class" d) as [classes|]; [|eauto].
  cbn [andb] in Hb. rewrite Hb. eexists. split; [reflexivity|]. split.
  - unfold clashes in *.
    rewrite !has_key_del, !has_key_app by reflexivity.
    cbn. now rewrite !orb_false_r.
  - rewrite spelled_del, spelled_app by reflexivity.
    cbn. now rewrite orb_false_r.
Qed.

Lemma reference_accepted (options : option dict) (rawsource text refuri : string) :
  accepted options = true ->
  exists attrs,
    (options <- set_classes (or_empty options) ;;
     make_reference rawsource text refuri options)
    = Returns (reference rawsource (text_children text) attrs) /\
    (keeps_refuri options = true -> attr_get "refuri" attrs = Some (Scalar refuri)).
Proof.
  intros H. destruct (set_classes_accepted options H) as (d & -> & Hc & Hs).
  eexists. cbn [bind]. unfold make_reference. rewrite Hc.
  split; [reflexivity|].
  unfold keeps_refuri. intros Hk. apply negb_true_iff in Hk.
  apply target_kept. now rewrite Hs.
Qed.

(** ** Text shown *)

Lemma has_char_append (c : ascii) (a b : string) :
  Py.has_char c (a ++ b) = Py.has_char c a || Py.has_char c b.
Proof.
  induction a as [|x a IH]; cbn; [reflexivity|].
  now rewrite IH, orb_assoc.
Qed.

Lemma remove_char_gone (a : ascii) (t : string) :
  Py.has_char a (remove_char a t) = false.
Proof.
  induction t as [|c t IH]; [reflexivity|].
  cbn [remove_char]. destruct (Ascii.eqb c a) eqn:E; [exact IH|].
  cbn [Py.has_char]. now rewrite E, IH.
Qed.

Lemma unescape_without_nul_after (t : string) :
  Py.has_char Py.NUL (unescape t) = false.
Proof. apply remove_char_gone. Qed.

(** A text without NUL in front of an unescaped text shows as it is. *)
Lemma unescape_label (kind t : string) :
  Py.has_char Py.NUL kind = false ->
  unescape (kind ++ unescape t) = kind ++ unescape t.
Proof.
  intros Hkind. apply unescape_without_nul.
  now rewrite has_char_append, Hkind, unescape_without_nul_after.
Qed.

Lemma unescape_numbered (kind : string) (n : Z) :
  Py.has_char Py.NUL kind = false ->
  unescape (kind ++ Py.decimal n) = kind ++ Py.decimal n.
Proof.
  intros Hkind. apply unescape_without_nul.
  now rewrite has_char_append, Hkind, decimal_without_nul.
Qed.

Lemma astext_text_children (t : string) :
  String.concat "" (map astext (text_children t)) = unescape t.
Proof. destruct t; reflexivity. Qed.

(** ** The numeric-id roles, case by case *)

Ltac numeric_role_succeeds Hint Hpos Hopt :=
  rewrite Hint; cbn [bind];
  rewrite (proj2 (Z.leb_gt _ 0) Hpos);
  rewrite (str_after_int _ _ _ Hint); cbn [bind];
  unfold _make_gh_link_node; rewrite unescape_decimal;
  match goal with
  | |- context [bind (set_classes (or_empty ?o)) (fun opts => make_reference ?r ?t ?u opts)] =>
      let attrs := fresh "attrs" in
      let Hattrs := fresh "Hattrs" in
      let Htarget := fresh "Htarget" in
      destruct (reference_accepted o r t u Hopt) as (attrs & Hattrs & Htarget);
      rewrite Hattrs; exists attrs; split; [reflexivity | exact Htarget]
  end.

Ltac numeric_role_fails H :=
  let n := fresh "n" in
  let e := fresh "e" in
  let E := fresh "E" in
  match goal with
  | |- context [Py.int ?m ?t] => destruct (Py.int m t) as [n|e] eqn:E
  end;
  [ cbn [bind]; rewrite (proj2 (Z.leb_le _ 0) (H _ eq_refl)); reflexivity
  | apply int_raises in E; subst e; reflexivity ].

Lemma bokeh_issue_success w name rawtext t lineno inliner options content n :
  Py.int (int_max_str_digits w) t = Returns n -> (0 < n)%Z ->
  accepted options = true ->
  exists attrs,
    bokeh_issue w name rawtext t lineno inliner options content
    = Returns ([reference rawtext [Text ("#" ++ Py.decimal n)] attrs], []) /\
    (keeps_refuri options = true ->
     attr_get "refuri" attrs
     = Some (Scalar (BOKEH_GH ++ "/issues/" ++ Py.decimal n))).
Proof.
  intros Hint Hpos Hopt. unfold bokeh_issue.
  numeric_role_succeeds Hint Hpos Hopt.
Qed.

Lemma bokeh_pull_success w name rawtext t lineno inliner options content n :
  Py.int (int_max_str_digits w) t = Returns n -> (0 < n)%Z ->
  accepted options = true ->
  exists attrs,
    bokeh_pull w name rawtext t lineno inliner options content
    = Returns ([reference rawtext [Text ("pull request " ++ Py.decimal n)] attrs],
               []) /\
    (keeps_refuri options = true ->
     attr_get "refuri" attrs
     = Some (Scalar (BOKEH_GH ++ "/pull/" ++ Py.decimal n))).
Proof.
  intros Hint Hpos Hopt. unfold bokeh_pull.
  numeric_role_succeeds Hint Hpos Hopt.
Qed.

Lemma bokeh_issue_failure w name rawtext t lineno inliner options content :
  (forall n, Py.int (int_max_str_digits w) t = Returns n -> (n <= 0)%Z) ->
  bokeh_issue w name rawtext t lineno inliner options content
  = Returns ([inliner_problematic rawtext rawtext
                (reporter_error (issue_message t) lineno)],
             [reporter_error (issue_message t) lineno]).
Proof.
  intros H. unfold bokeh_issue, issue_message. numeric_role_fails H.
Qed.

Lemma bokeh_pull_failure w name rawtext t lineno inliner options content :
  (forall n, Py.int (int_max_str_digits w) t = Returns n -> (n <= 0)%Z) ->
  bokeh_pull w name rawtext t lineno inliner options content
  = Returns ([inliner_problematic rawtext rawtext
                (reporter_error (pull_message t) lineno)],
             [reporter_error (pull_message t) lineno]).
Proof.
  intros H. unfold bokeh_pull, pull_message. numeric_role_fails H.
Qed.

(** * The claims *)




(** The issue role on a number written with leading zeros, and on one
    written with a sign, blanks and an underscore. *)
Example issue_role_leading_zeros :
  bokeh_issue (example_world ">=3.10" []) "bokeh-issue" ":bokeh-issue:`007`"
    "007" 12 (example_inliner "3.5.0") None None
  = Returns ([reference ":bokeh-issue:`007`" [Text "#7"]
                (element_attributes
                   [("refuri", Scalar "https://github.com/bokeh/bokeh/issues/7")])],
             []).
Proof. reflexivity. Qed.

Example issue_role_sign_and_underscore :
  bokeh_issue (example_world ">=3.10" []) "bokeh-issue" ":bokeh-issue:` +1_694 `"
    " +1_694 " 12 (example_inliner "3.5.0") None None
  = Returns ([reference ":bokeh-issue:` +1_694 `" [Text "#1694"]
                (element_attributes
                   [("refuri", Scalar "https://github.com/bokeh/bokeh/issues/1694")])],
             []).
Proof. reflexivity. Qed.

(** C2, amended. A text that [int] does not read, or reads as a number
    [<= 0], makes each of the two roles return one problematic marker,
    no link, and one error message. The message holds [repr] of the text; it holds the text
    itself whenever [repr] copies it unchanged (printable characters, no
    backslash, not both kinds of quote). *)
Theorem invalid_number_reports_repr
    w name rawtext t lineno inliner options content :
  (forall n, Py.int (int_max_str_digits w) t = Returns n -> (n <= 0)%Z) ->
  (exists prb msg,
     bokeh_issue w name rawtext t lineno inliner options content
       = Returns ([prb], [msg]) /\
     is_problematic prb = true /\
     count_links [prb] = 0 /\ msg_type msg = "ERROR" /\
     Py.occurs_in (Py.repr t) (message msg) /\
     (verbatim t = true -> Py.occurs_in t (message msg)))
  /\
  (exists prb msg,
     bokeh_pull w name rawtext t lineno inliner options content
       = Returns ([prb], [msg]) /\
     is_problematic prb = true /\
     count_links [prb] = 0 /\ msg_type msg = "ERROR" /\
     Py.occurs_in (Py.repr t) (message msg) /\
     (verbatim t = true -> Py.occurs_in t (message msg))).
Proof.
  intros H. split.
  - eexists _, _. split; [exact (bokeh_issue_failure _ _ _ _ _ _ _ _ H)|].
    split; [reflexivity|]. split; [reflexivity|]. split; [reflexivity|]. split.
    + apply occurs_in_append. exists "", "". now rewrite append_empty_r.
    + intros Hv. apply occurs_in_append, repr_shows_verbatim, Hv.
  - eexists _, _. split; [exact (bokeh_pull_failure _ _ _ _ _ _ _ _ H)|].
    split; [reflexivity|]. split; [reflexivity|]. split; [reflexivity|]. split.
    + apply occurs_in_append. exists "", "". now rewrite append_empty_r.
    + intros Hv. apply occurs_in_append, repr_shows_verbatim, Hv.
Qed.

Lemma invalid_number_reports_repr_witness :
  (exists prb msg,
     bokeh_issue (example_world ">=3.10" []) "bokeh-issue" ":bokeh-issue:`abc`"
       "abc" 12 (example_inliner "3.5.0") None None = Returns ([prb], [msg]) /\
     is_problematic prb = true /\
     count_links [prb] = 0 /\ msg_type msg = "ERROR" /\
     Py.occurs_in (Py.repr "abc") (message msg) /\
     (verbatim "abc" = true -> Py.occurs_in "abc" (message msg)))
  /\
  (exists prb msg,
     bokeh_pull (example_world ">=3.10" []) "bokeh-issue" ":bokeh-issue:`abc`"
       "abc" 12 (example_inliner "3.5.0") None None = Returns ([prb], [msg]) /\
     is_problematic prb = true /\
     count_links [prb] = 0 /\ msg_type msg = "ERROR" /\
     Py.occurs_in (Py.repr "abc") (message msg) /\
     (verbatim "abc" = true -> Py.occurs_in "abc" (message msg))).
Proof.
  apply (invalid_number_reports_repr (example_world ">=3.10" [])
           "bokeh-issue" ":bokeh-issue:`abc`" "abc" 12 (example_inliner "3.5.0")
           None None).
  intros n H. vm_compute in H. discriminate H.
Defined.

(** C2 as stated fails: the role text [1], newline, [2] (a number wrapped
    over two lines) is no integer, and the message shows it as
    ['1\n2'] with a backslash and an [n], so the text itself is not in
    the message. *)
Lemma issue_message_escapes_newline :
  let t := String "1" (String Py.LF "2") in
  (forall n, Py.int 4300 t = Returns n -> (n <= 0)%Z) /\
  exists prb msg,
    bokeh_issue (example_world ">=3.10" []) "bokeh-issue" t t 12
      (example_inliner "3.5.0") None None = Returns ([prb], [msg]) /\
    ~ Py.occurs_in t (message msg).
Proof.
  cbv zeta. split.
  - intros n H. vm_compute in H. discriminate H.
  - eexists _, _. split; [reflexivity|].
    intros H. apply contains_iff in H. vm_compute in H. discriminate H.
Qed.

(** C3, amended. Each numeric-id role, called with options the node
    constructor takes, returns either one link and no message, or one
    problematic marker, which is no link, and one message; nothing
    else. *)
Theorem numeric_role_result_shape
    w name rawtext t lineno inliner options content :
  accepted options = true ->
  link_or_report (bokeh_issue w name rawtext t lineno inliner options content)
  /\ link_or_report (bokeh_pull w name rawtext t lineno inliner options content).
Proof.
  intros Hopt.
  assert (Hcases : (exists n, Py.int (int_max_str_digits w) t = Returns n /\ (0 < n)%Z)
                   \/ (forall n, Py.int (int_max_str_digits w) t = Returns n -> (n <= 0)%Z)).
  { destruct (Py.int (int_max_str_digits w) t) as [n|e].
    - destruct (Z_lt_le_dec 0 n) as [Hpos|Hle].
      + left. eauto.
      + right. intros n' [= <-]. exact Hle.
    - right. intros n' [=]. }
  destruct Hcases as [(n & Hint & Hpos)|Hbad].
  - split; left.
    + destruct (bokeh_issue_success w name rawtext t lineno inliner options
                  content n Hint Hpos Hopt) as (attrs & -> & _). eauto.
    + destruct (bokeh_pull_success w name rawtext t lineno inliner options
                  content n Hint Hpos Hopt) as (attrs & -> & _). eauto.
  - split; right.
    + rewrite (bokeh_issue_failure _ _ _ _ _ _ _ _ Hbad).
      eexists _, _. repeat split.
    + rewrite (bokeh_pull_failure _ _ _ _ _ _ _ _ Hbad).
      eexists _, _. repeat split.
Qed.

Lemma numeric_role_result_shape_witness :
  link_or_report (bokeh_issue (example_world ">=3.10" []) "bokeh-issue"
                    ":bokeh-issue:`1694`" "1694" 12 (example_inliner "3.5.0")
                    None None)
  /\ link_or_report (bokeh_pull (example_world ">=3.10" []) "bokeh-issue"
                       ":bokeh-issue:`1694`" "1694" 12 (example_inliner "3.5.0")
                       None None).
Proof.
  apply (numeric_role_result_shape (example_world ">=3.10" []) "bokeh-issue"
           ":bokeh-issue:`1694`" "1694" 12 (example_inliner "3.5.0") None None).
  reflexivity.
Defined.

(** C3 as stated fails: on the text [abc] the issue role returns one node,
    the problematic marker, together with one message; that is neither
    one node with no message nor no node with one message. *)
Lemma issue_failure_returns_a_node :
  exists nodes msgs,
    bokeh_issue (example_world ">=3.10" []) "bokeh-issue" ":bokeh-issue:`abc`"
      "abc" 12 (example_inliner "3.5.0") None None = Returns (nodes, msgs) /\
    ~ ((List.length nodes = 1 /\ List.length msgs = 0)
       \/ (List.length nodes = 0 /\ List.length msgs = 1)).
Proof.
  eexists _, _. split; [reflexivity|].
  cbn. intros [[_ H]|[H _]]; discriminate H.
Qed.

(** C4, amended. The commit role checks nothing and, called with options
    the node constructor takes, none of them named [refuri] in any
    letter case, returns one link and no message for every text: the
    target is the repository address followed by [/commit/] and the
    text, and the visible text is ["commit "] followed by the text with
    its escapes removed, which is the text itself when it holds no NUL. *)
Theorem commit_role_total
    w name rawtext t lineno inliner options content :
  accepted options = true -> keeps_refuri options = true ->
  exists node url,
    bokeh_commit w name rawtext t lineno inliner options content
      = Returns ([node], []) /\
    is_reference node = true /\
    astext node = "commit " ++ unescape t /\
    (Py.has_char Py.NUL t = false -> astext node = "commit " ++ t) /\
    target node = Some (Scalar url) /\ Py.endswith url ("/commit/" ++ t).
Proof.
  intros Hopt Hkeep. unfold bokeh_commit, _make_gh_link_node.
  match goal with
  | |- context [bind (set_classes (or_empty ?o)) (fun opts => make_reference ?r ?x ?u opts)] =>
      destruct (reference_accepted o r x u Hopt) as (attrs & -> & Htarget)
  end.
  eexists _, _. split; [reflexivity|].
  split; [reflexivity|].
  assert (Htext : astext (reference rawtext
                            (text_children ("commit " ++ unescape t)) attrs)
                  = "commit " ++ unescape t).
  { cbn [astext]. rewrite astext_text_children.
    exact (unescape_label "commit " t eq_refl). }
  split; [exact Htext|]. split.
  - intros Hnul. rewrite Htext. now rewrite (unescape_without_nul t Hnul).
  - split; [exact (Htarget Hkeep)|]. exists BOKEH_GH. reflexivity.
Qed.

Lemma commit_role_total_witness :
  exists node url,
    bokeh_commit (example_world ">=3.10" []) "bokeh-commit"
      ":bokeh-commit:`bf19bcb`" "bf19bcb" 31 (example_inliner "3.5.0") None None
      = Returns ([node], []) /\
    is_reference node = true /\
    astext node = "commit " ++ unescape "bf19bcb" /\
    (Py.has_char Py.NUL "bf19bcb" = false -> astext node = "commit " ++ "bf19bcb") /\
    target node = Some (Scalar url) /\ Py.endswith url ("/commit/" ++ "bf19bcb").
Proof.
  apply (commit_role_total (example_world ">=3.10" []) "bokeh-commit"
           ":bokeh-commit:`bf19bcb`" "bf19bcb" 31 (example_inliner "3.5.0")
           None None); reflexivity.
Defined.

(** A [class] option reaches the node under the name [classes]. *)
Example commit_role_with_class :
  bokeh_commit (example_world ">=3.10" []) "bokeh-commit"
    ":bokeh-commit:`bf19bcb`" "bf19bcb" 31 (example_inliner "3.5.0")
    (Some [("class", ["sha"])]) None
  = Returns ([reference ":bokeh-commit:`bf19bcb`" [Text "commit bf19bcb"]
                [("ids", Names []); ("classes", Names ["sha"]); ("names", Names []);
                 ("dupnames", Names []); ("backrefs", Names []);
                 ("refuri", Scalar "https://github.com/bokeh/bokeh/commit/bf19bcb")]],
             []).
Proof. reflexivity. Qed.

(** C4 as stated fails: for the text [bf19], NUL, [bcb] (the parser's
    rendering of a backslash between the two halves) the visible text is
    [commit bf19bcb], not ["commit "] followed by the text. *)
Lemma commit_text_loses_escape :
  let t := "bf19" ++ String Py.NUL "bcb" in
  exists node,
    bokeh_commit (example_world ">=3.10" []) "bokeh-commit" t t 31
      (example_inliner "3.5.0") None None = Returns ([node], []) /\
    astext node = "commit bf19bcb" /\
    astext node <> "commit " ++ t.
Proof.
  cbv zeta. eexists. split; [reflexivity|]. split; [reflexivity|].
  intros H. vm_compute in H. discriminate H.
Qed.

(** An option named [RefURI] takes the place of the target of a commit
    link as well. *)
Example commit_target_taken_by_option :
  exists node,
    bokeh_commit (example_world ">=3.10" []) "bokeh-commit"
      ":bokeh-commit:`bf19bcb`" "bf19bcb" 31 (example_inliner "3.5.0")
      (Some [("RefURI", ["x"])]) None = Returns ([node], []) /\
    target node = Some (Names ["x"]).
Proof. eexists. split; reflexivity. Qed.

(** ** The source-tree role *)

(** C5, amended. For every path fragment and every configured version,
    the tree role, called with options the node constructor takes, none
    of them named [refuri] in any letter case, returns one reference and
    no message; the visible text is the path fragment with its escapes
    removed, the path fragment itself when it holds no NUL, and the
    target is the repository address followed by [/tree/], the tag, [/]
    and the path, where the tag is [main] when the version holds a
    hyphen and the version itself otherwise. Version [3.5.0] with path
    [examples] gives a target ending in [/tree/3.5.0/examples], version
    [3.5.0-dev1] one ending in [/tree/main/examples]. *)
Theorem tree_role_target
    w name rawtext p lineno inliner options content :
  accepted options = true -> keeps_refuri options = true ->
  let v := config_version (app_of inliner) in
  exists node tag url,
    bokeh_tree w name rawtext p lineno inliner options content
      = Returns ([node], []) /\
    is_reference node = true /\
    astext node = unescape p /\
    (Py.has_char Py.NUL p = false -> astext node = p) /\
    target node = Some (Scalar url) /\
    url = BOKEH_GH ++ "/tree/" ++ tag ++ "/" ++ p /\
    (In "-"%char (list_ascii_of_string v) -> tag = "main") /\
    (~ In "-"%char (list_ascii_of_string v) -> tag = v) /\
    (v = "3.5.0" -> p = "examples" -> Py.endswith url "/tree/3.5.0/examples") /\
    (v = "3.5.0-dev1" -> p = "examples" -> Py.endswith url "/tree/main/examples").
Proof.
  intros Hopt Hkeep v. unfold bokeh_tree. fold v.
  match goal with
  | |- context [bind (set_classes (or_empty ?o)) (fun opts => bind (make_reference ?r ?x ?u opts) _)] =>
      destruct (set_classes_accepted o Hopt) as (d & -> & Hc & Hs);
      cbn [bind]; unfold make_reference; rewrite Hc; cbn [bind]
  end.
  eexists _, (if Py.contains v "-" then "main" else v), _.
  split; [reflexivity|]. split; [reflexivity|].
  cbn [astext]. rewrite astext_text_children.
  split; [reflexivity|].
  split; [intros Hnul; now apply unescape_without_nul|].
  split.
  { cbn [target]. apply target_kept. rewrite Hs.
    unfold keeps_refuri in Hkeep. now apply negb_true_iff in Hkeep. }
  split; [reflexivity|].
  rewrite contains_char.
  split; [|split; [|split]].
  - intros Hin. apply has_char_In in Hin. now rewrite Hin.
  - intros Hin. destruct (Py.has_char "-" v) eqn:E; [|reflexivity].
    apply has_char_In in E. contradiction.
  - intros -> ->. exists BOKEH_GH. reflexivity.
  - intros -> ->. exists BOKEH_GH. reflexivity.
Qed.

Lemma tree_role_target_witness :
  let v := "3.5.0-dev1" in
  exists node tag url,
    bokeh_tree (example_world ">=3.10" []) "bokeh-tree" ":bokeh-tree:`examples`"
      "examples" 40 (example_inliner "3.5.0-dev1") None None
      = Returns ([node], []) /\
    is_reference node = true /\
    astext node = unescape "examples" /\
    (Py.has_char Py.NUL "examples" = false -> astext node = "examples") /\
    target node = Some (Scalar url) /\
    url = BOKEH_GH ++ "/tree/" ++ tag ++ "/" ++ "examples" /\
    (In "-"%char (list_ascii_of_string v) -> tag = "main") /\
    (~ In "-"%char (list_ascii_of_string v) -> tag = v) /\
    (v = "3.5.0" -> "examples" = "examples" ->
     Py.endswith url "/tree/3.5.0/examples") /\
    (v = "3.5.0-dev1" -> "examples" = "examples" ->
     Py.endswith url "/tree/main/examples").
Proof.
  apply (tree_role_target (example_world ">=3.10" []) "bokeh-tree"
           ":bokeh-tree:`examples`" "examples" 40 (example_inliner "3.5.0-dev1")
           None None); reflexivity.
Defined.

(** C5 as stated fails: for the path [a], NUL, blank, [b] (the parser's
    rendering of [a\ b]) the visible text is [ab], not the path. *)
Lemma tree_text_loses_escape :
  let p := "a" ++ String Py.NUL " b" in
  exists node,
    bokeh_tree (example_world ">=3.10" []) "bokeh-tree" ":bokeh-tree:`a\ b`" p 40
      (example_inliner "3.5.0") None None = Returns ([node], []) /\
    astext node = "ab" /\
    astext node <> p.
Proof.
  cbv zeta. eexists. split; [reflexivity|]. split; [reflexivity|].
  intros H. vm_compute in H. discriminate H.
Qed.

(** An option named [RefURI] takes the place of the target of a tree
    link. *)
Example tree_target_taken_by_option :
  exists node,
    bokeh_tree (example_world ">=3.10" []) "bokeh-tree" ":bokeh-tree:`examples`"
      "examples" 40 (example_inliner "3.5.0") (Some [("RefURI", ["x"])]) None
      = Returns ([node], []) /\
    target node = Some (Names ["x"]).
Proof. eexists. split; reflexivity. Qed.

Example tree_role_release :
  bokeh_tree (example_world ">=3.10" []) "bokeh-tree" ":bokeh-tree:`examples`"
    "examples" 40 (example_inliner "3.5.0") None None
  = Returns ([reference ":bokeh-tree:`examples`" [Text "examples"]
                (element_attributes
                   [("refuri",
                     Scalar "https://github.com/bokeh/bokeh/tree/3.5.0/examples")])],
             []).
Proof. reflexivity. Qed.

Example tree_role_development :
  bokeh_tree (example_world ">=3.10" []) "bokeh-tree" ":bokeh-tree:`examples`"
    "examples" 40 (example_inliner "3.5.0-dev1") None None
  = Returns ([reference ":bokeh-tree:`examples`" [Text "examples"]
                (element_attributes
                   [("refuri",
                     Scalar "https://github.com/bokeh/bokeh/tree/main/examples")])],
             []).
Proof. reflexivity. Qed.

(** ** The pull-request role against the issue role *)

Ltac numeric_role_refines :=
  unfold spec_numeric_id_role;
  match goal with
  | |- context [Py.int ?m ?t] =>
      let n := fresh "n" in
      let e := fresh "e" in
      let E := fresh "E" in
      destruct (Py.int m t) as [n|e] eqn:E;
      [ cbn [bind];
        destruct (Z.leb_spec n 0) as [Hle|Hgt];
        [ rewrite (proj2 (Z.ltb_ge 0 n) Hle); reflexivity
        | rewrite (proj2 (Z.ltb_lt 0 n) Hgt);
          rewrite (str_after_int _ _ _ E); cbn [bind];
          unfold _make_gh_link_node, spec_link_node;
          rewrite unescape_decimal; reflexivity ]
      | apply int_raises in E; subst e; reflexivity ]
  end.

(** C6. The issue role and the pull-request role are one role, read off
    sections 4.3 and 4.4, taken at two sets of names: the pull-request
    role is the issue role with the prefix ["pull request "] for ["#"],
    the path segment [pull] for [issues], and [pull request] for [issue]
    in the error message. *)
Theorem pull_role_is_issue_role_renamed
    w name rawtext t lineno inliner options content :
  bokeh_issue w name rawtext t lineno inliner options content
    = spec_numeric_id_role "issue" "#" "issues"
        w name rawtext t lineno inliner options content
  /\ bokeh_pull w name rawtext t lineno inliner options content
    = spec_numeric_id_role "pull request" "pull request " "pull"
        w name rawtext t lineno inliner options content.
Proof.
  split.
  - unfold bokeh_issue. numeric_role_refines.
  - unfold bokeh_pull. numeric_role_refines.
Qed.

(** ** The roles that read the project descriptor *)

Lemma lstrip_split (chars s : string) :
  exists stripped,
    s = stripped ++ Py.lstrip chars s /\
    Forall (fun c => Py.has_char c chars = true) (list_ascii_of_string stripped) /\
    forall c rest, Py.lstrip chars s = String c rest -> Py.has_char c chars = false.
Proof.
  induction s as [|c s (stripped & Heq & Hall & Hhead)].
  - exists "". repeat split; [constructor | discriminate].
  - cbn [Py.lstrip]. destruct (Py.has_char c chars) eqn:E.
    + exists (String c stripped). split; [cbn; now rewrite <- Heq|].
      split; [now constructor | exact Hhead].
    + exists "". split; [reflexivity|]. split; [constructor|].
      now intros c' rest [= <- _].
Qed.

Lemma gt_or_eq (c : ascii) :
  Py.has_char c ">=" = true <-> c = ">"%char \/ c = "="%char.
Proof.
  cbn [Py.has_char]. rewrite !orb_true_iff, !Ascii.eqb_eq.
  split; [intros [H|[H|H]]|intros [H|H]]; auto; discriminate.
Qed.

Lemma bokeh_minpy_returns REPO_TOP w name rawtext text lineno inliner options content
    table requires :
  files w (Py.join REPO_TOP "pyproject.toml") = Toml {| project := Some table |} ->
  requires_python table = Some requires ->
  bokeh_minpy REPO_TOP w name rawtext text lineno inliner options content
  = Returns ([Text (Py.lstrip ">=" requires)], []).
Proof.
  intros Hfile Hkey. unfold bokeh_minpy, toml_load.
  rewrite Hfile. cbn. now rewrite Hkey.
Qed.

(** C7, amended. The minimum-version role reads the descriptor at every
    call: two calls in two states of the files return what each state
    declares. The constraint loses its leading [>] and [=] characters,
    and these only; the result is one text node and no message. For
    [requires-python = ">=3.10"] the text is [3.10]. *)
Theorem minpy_role_strips_gt_eq
    REPO_TOP w1 w2 name rawtext text lineno inliner options content
    table1 requires1 table2 requires2 :
  files w1 (Py.join REPO_TOP "pyproject.toml") = Toml {| project := Some table1 |} ->
  requires_python table1 = Some requires1 ->
  files w2 (Py.join REPO_TOP "pyproject.toml") = Toml {| project := Some table2 |} ->
  requires_python table2 = Some requires2 ->
  bokeh_minpy REPO_TOP w1 name rawtext text lineno inliner options content
    = Returns ([Text (Py.lstrip ">=" requires1)], []) /\
  bokeh_minpy REPO_TOP w2 name rawtext text lineno inliner options content
    = Returns ([Text (Py.lstrip ">=" requires2)], []) /\
  (requires1 = ">=3.10" ->
   bokeh_minpy REPO_TOP w1 name rawtext text lineno inliner options content
     = Returns ([Text "3.10"], [])).
Proof.
  intros Hf1 Hk1 Hf2 Hk2.
  rewrite (bokeh_minpy_returns _ _ _ _ _ _ _ _ _ _ _ Hf1 Hk1).
  rewrite (bokeh_minpy_returns _ _ _ _ _ _ _ _ _ _ _ Hf2 Hk2).
  split; [reflexivity|]. split; [reflexivity|].
  now intros ->.
Qed.

Lemma minpy_role_strips_gt_eq_witness :
  bokeh_minpy "/repo" (example_world ">=3.10" []) "bokeh-minpy" ":bokeh-minpy:`x`"
    "x" 5 (example_inliner "3.5.0") None None
    = Returns ([Text (Py.lstrip ">=" ">=3.10")], []) /\
  bokeh_minpy "/repo" (example_world ">=3.11" []) "bokeh-minpy" ":bokeh-minpy:`x`"
    "x" 5 (example_inliner "3.5.0") None None
    = Returns ([Text (Py.lstrip ">=" ">=3.11")], []) /\
  (">=3.10" = ">=3.10" ->
   bokeh_minpy "/repo" (example_world ">=3.10" []) "bokeh-minpy" ":bokeh-minpy:`x`"
     "x" 5 (example_inliner "3.5.0") None None
     = Returns ([Text "3.10"], [])).
Proof.
  apply (minpy_role_strips_gt_eq "/repo" (example_world ">=3.10" [])
           (example_world ">=3.11" []) "bokeh-minpy" ":bokeh-minpy:`x`" "x" 5
           (example_inliner "3.5.0") None None
           {| requires_python := Some ">=3.10"; dependencies := Some [] |} ">=3.10"
           {| requires_python := Some ">=3.11"; dependencies := Some [] |} ">=3.11");
    reflexivity.
Defined.

(** C7 as stated fails: for [requires-python = "~=3.10"] the text is
    [~=3.10], with its operator characters in front, and not what is left
    once the leading comparison operator characters are taken off. *)
Lemma minpy_keeps_compatible_release_operator :
  exists out,
    bokeh_minpy "/repo" (example_world "~=3.10" []) "bokeh-minpy"
      ":bokeh-minpy:`x`" "x" 5 (example_inliner "3.5.0") None None
      = Returns ([Text out], []) /\
    out = "~=3.10" /\
    out <> Py.lstrip comparison_operator_characters "~=3.10".
Proof.
  eexists. split; [reflexivity|]. split; [reflexivity|].
  intros H. vm_compute in H. discriminate H.
Qed.

(** C10. The text the minimum-version role gives is the constraint
    without a run of leading [>] and [=] characters, in any number and
    order; it does not begin with either, and a constraint that begins
    with any other character comes out whole: [<=3.10] and [~=3.10] keep
    their operator. *)
Theorem minpy_role_strips_only_gt_eq
    REPO_TOP w name rawtext text lineno inliner options content table requires :
  files w (Py.join REPO_TOP "pyproject.toml") = Toml {| project := Some table |} ->
  requires_python table = Some requires ->
  exists stripped out,
    bokeh_minpy REPO_TOP w name rawtext text lineno inliner options content
      = Returns ([Text out], []) /\
    requires = stripped ++ out /\
    Forall (fun c => c = ">"%char \/ c = "="%char) (list_ascii_of_string stripped) /\
    (forall c rest, out = String c rest -> c <> ">"%char /\ c <> "="%char) /\
    (forall c rest, requires = String c rest ->
       c <> ">"%char -> c <> "="%char -> out = requires) /\
    (requires = "<=3.10" -> out = "<=3.10") /\
    (requires = "~=3.10" -> out = "~=3.10").
Proof.
  intros Hfile Hkey.
  destruct (lstrip_split ">=" requires) as (stripped & Heq & Hall & Hhead).
  exists stripped, (Py.lstrip ">=" requires).
  split; [exact (bokeh_minpy_returns _ _ _ _ _ _ _ _ _ _ _ Hfile Hkey)|].
  split; [exact Heq|]. split; [|split; [|split; [|split]]].
  - eapply Forall_impl; [|exact Hall]. intros c Hc. now apply gt_or_eq.
  - intros c rest Hout. specialize (Hhead c rest Hout).
    split; intros ->; discriminate Hhead.
  - intros c rest -> Hgt Heqc. cbn [Py.lstrip].
    destruct (Py.has_char c ">=") eqn:E; [|reflexivity].
    apply gt_or_eq in E as [E|E]; contradiction.
  - now intros ->.
  - now intros ->.
Qed.

Lemma minpy_role_strips_only_gt_eq_witness :
  exists stripped out,
    bokeh_minpy "/repo" (example_world "=>>=3.10" []) "bokeh-minpy"
      ":bokeh-minpy:`x`" "x" 5 (example_inliner "3.5.0") None None
      = Returns ([Text out], []) /\
    "=>>=3.10" = stripped ++ out /\
    Forall (fun c => c = ">"%char \/ c = "="%char) (list_ascii_of_string stripped) /\
    (forall c rest, out = String c rest -> c <> ">"%char /\ c <> "="%char) /\
    (forall c rest, "=>>=3.10" = String c rest ->
       c <> ">"%char -> c <> "="%char -> out = "=>>=3.10") /\
    ("=>>=3.10" = "<=3.10" -> out = "<=3.10") /\
    ("=>>=3.10" = "~=3.10" -> out = "~=3.10").
Proof.
  apply (minpy_role_strips_only_gt_eq "/repo" (example_world "=>>=3.10" [])
           "bokeh-minpy" ":bokeh-minpy:`x`" "x" 5 (example_inliner "3.5.0")
           None None
           {| requires_python := Some "=>>=3.10"; dependencies := Some [] |}
           "=>>=3.10"); reflexivity.
Defined.

Example minpy_role_upper_bound :
  bokeh_minpy "/repo" (example_world "<=3.10" []) "bokeh-minpy" ":bokeh-minpy:`x`"
    "x" 5 (example_inliner "3.5.0") None None
  = Returns ([Text "<=3.10"], []).
Proof. reflexivity. Qed.

Example minpy_role_mixed_run :
  bokeh_minpy "/repo" (example_world "=>>=3.10" []) "bokeh-minpy" ":bokeh-minpy:`x`"
    "x" 5 (example_inliner "3.5.0") None None
  = Returns ([Text "3.10"], []).
Proof. reflexivity. Qed.

(** A descriptor that is not there is a fault of the call, not a message. *)
Example minpy_role_without_descriptor :
  bokeh_minpy "/elsewhere" (example_world ">=3.10" []) "bokeh-minpy"
    ":bokeh-minpy:`x`" "x" 5 (example_inliner "3.5.0") None None
  = Raises FileNotFoundError.
Proof. reflexivity. Qed.

Lemma bullet_list_of (deps : list string) (rawsource : string) (items : list node) :
  fold_left (fun node dep => iadd node (list_item "" [Text dep])) deps
    (bullet_list rawsource items)
  = bullet_list rawsource
      (items ++ map (fun dep => list_item "" [Text dep]) deps)%list.
Proof.
  revert items. induction deps as [|dep deps IH]; intros items.
  - cbn. now rewrite List.app_nil_r.
  - cbn [fold_left iadd map]. rewrite IH, <- List.app_assoc. reflexivity.
Qed.

Lemma astext_items (deps : list string) :
  map astext (map (fun dep => list_item "" [Text dep]) deps)
  = map unescape deps.
Proof.
  induction deps as [|dep deps IH]; [reflexivity|].
  cbn [map]. rewrite IH. reflexivity.
Qed.

(** C8. For a descriptor that declares its dependencies, the dependencies
    role returns one bulleted list and no message; the list holds one
    item per dependency, each made of the dependency as its text and
    showing it without escapes, in the order of the file. For [numpy]
    then [requests] the list has these two items, showing [numpy] and
    [requests], in this order. *)
Theorem requires_role_lists_dependencies
    REPO_TOP w name rawtext text lineno inliner options content table deps :
  files w (Py.join REPO_TOP "pyproject.toml") = Toml {| project := Some table |} ->
  dependencies table = Some deps ->
  exists items,
    bokeh_requires REPO_TOP w name rawtext text lineno inliner options content
      = Returns ([bullet_list "" items], []) /\
    items = map (fun dep => list_item "" [Text dep]) deps /\
    List.length items = List.length deps /\
    map astext items = map unescape deps /\
    (deps = ["numpy"; "requests"] ->
     items = [list_item "" [Text "numpy"]; list_item "" [Text "requests"]] /\
     map astext items = ["numpy"; "requests"]).
Proof.
  intros Hfile Hkey.
  exists (map (fun dep => list_item "" [Text dep]) deps).
  split.
  - unfold bokeh_requires, toml_load. rewrite Hfile. cbn [bind getitem project].
    rewrite Hkey. cbn [bind getitem]. now rewrite bullet_list_of.
  - split; [reflexivity|]. split; [apply length_map|].
    split; [apply astext_items|]. now intros ->.
Qed.

Lemma requires_role_lists_dependencies_witness :
  exists items,
    bokeh_requires "/repo" (example_world ">=3.10" ["numpy"; "requests"])
      "bokeh-requires" ":bokeh-requires:`x`" "x" 8 (example_inliner "3.5.0")
      None None = Returns ([bullet_list "" items], []) /\
    items = map (fun dep => list_item "" [Text dep]) ["numpy"; "requests"] /\
    List.length items = List.length ["numpy"; "requests"] /\
    map astext items = map unescape ["numpy"; "requests"] /\
    (["numpy"; "requests"] = ["numpy"; "requests"] ->
     items = [list_item "" [Text "numpy"]; list_item "" [Text "requests"]] /\
     map astext items = ["numpy"; "requests"]).
Proof.
  apply (requires_role_lists_dependencies "/repo"
           (example_world ">=3.10" ["numpy"; "requests"])
           "bokeh-requires" ":bokeh-requires:`x`" "x" 8 (example_inliner "3.5.0")
           None None
           {| requires_python := Some ">=3.10";
              dependencies := Some ["numpy"; "requests"] |}
           ["numpy"; "requests"]); reflexivity.
Defined.

(** ** The bucket table *)

Lemma getitem_frozen (o item : Release.object) (k : Z) :
  Release.frozen o = true -> Release.getitem o k = Returns item ->
  Release.frozen item = true.
Proof.
  intros Hfrozen. unfold Release.getitem.
  destruct (Release.position (Release.len o) k) as [j|]; [|discriminate].
  destruct o as [text|items|items]; cbn [Release.frozen] in Hfrozen.
  - destruct (String.get j text); [|discriminate]. now intros [= <-].
  - destruct (nth_error items j) as [found|] eqn:E; [|discriminate].
    intros [= <-]. apply nth_error_In in E.
    rewrite forallb_forall in Hfrozen. now apply Hfrozen.
  - discriminate Hfrozen.
Qed.

(** No change in place gets through to an object made of tuples and
    strings only, however deep the place. *)
Lemma frozen_refuses (path : list Z) (c : Release.change) (o : Release.object) :
  Release.frozen o = true -> exists e, Release.change_at path c o = Raises e.
Proof.
  revert o. induction path as [|k rest IH]; intros o Hfrozen.
  - cbn [Release.change_at]. destruct o; cbn [Release.apply_change]; eauto.
    discriminate Hfrozen.
  - cbn [Release.change_at].
    destruct (Release.getitem o k) as [item|e] eqn:E; cbn [bind]; eauto.
    destruct (IH item (getitem_frozen _ _ _ Hfrozen E)) as [e ->].
    cbn [bind]. eauto.
Qed.

Lemma global_bound (name : string) (value : Release.object)
    (globals : list (string * Release.object)) :
  option_map snd
    (find (fun kv => String.eqb (fst kv) name)
       (Fragment.bind_global name value globals))
  = Some value.
Proof.
  induction globals as [|[k old] rest IH]; cbn [Fragment.bind_global find fst].
  - now rewrite String.eqb_refl.
  - destruct (String.eqb k name) eqn:E; cbn [find fst]; rewrite E;
      [reflexivity | exact IH].
Qed.

(** The operations that do not run the body of [release/__init__.py]
    leave every name of that module bound as it was; running the body
    binds the table anew, to the same tuple. *)
Lemma step_keeps_table REPO_TOP (ParallelSafe : Type) (PARALLEL_SAFE : ParallelSafe)
    (op : Fragment.operation) (p : Fragment.program) :
  Fragment.global "BOKEHJS_BUCKETS" p = Some Release.BOKEHJS_BUCKETS ->
  Fragment.global "BOKEHJS_BUCKETS"
    (fst (Fragment.step REPO_TOP ParallelSafe PARALLEL_SAFE op p))
  = Some Release.BOKEHJS_BUCKETS.
Proof.
  intros H. destruct op; cbn [Fragment.step fst]; [|exact H|exact H].
  apply global_bound.
Qed.

Lemma run_keeps_table REPO_TOP (ParallelSafe : Type) (PARALLEL_SAFE : ParallelSafe)
    (ops : list Fragment.operation) (p : Fragment.program) :
  Fragment.global "BOKEHJS_BUCKETS" p = Some Release.BOKEHJS_BUCKETS ->
  Fragment.global "BOKEHJS_BUCKETS"
    (Fragment.run REPO_TOP ParallelSafe PARALLEL_SAFE ops p)
  = Some Release.BOKEHJS_BUCKETS.
Proof.
  unfold Fragment.run. revert p.
  induction ops as [|op ops IH]; intros p H; [exact H|].
  cbn [fold_left]. apply IH. now apply step_keeps_table.
Qed.

(** C9. The bucket table is a tuple of two tuples of two strings, the
    primary mirror (host name, region) at index 0 and the backup mirror
    at index 1. It cannot be changed in place: every assignment to an
    item and every deletion of an item, at the table, at a pair or
    inside a string of it, raises and leaves it as it is. And no
    operation of the fragment changes what the name is bound to: once
    the module body has run, any sequence of role calls, of runs of
    [setup] and of further runs of the module body leaves the name bound
    to this very tuple. *)
Theorem bucket_table_never_modified
    REPO_TOP (ParallelSafe : Type) (PARALLEL_SAFE : ParallelSafe) :
  Release.len Release.BOKEHJS_BUCKETS = 2 /\
  Release.getitem Release.BOKEHJS_BUCKETS 0
    = Returns (Release.PyTuple [Release.PyStr "cdn.bokeh.org";
                                Release.PyStr "us-east-1"]) /\
  Release.getitem Release.BOKEHJS_BUCKETS 1
    = Returns (Release.PyTuple [Release.PyStr "cdn-backup.bokeh.org";
                                Release.PyStr "us-west-2"]) /\
  (forall path c,
     exists e, Release.change_at path c Release.BOKEHJS_BUCKETS = Raises e) /\
  (forall ops p,
     Fragment.global "BOKEHJS_BUCKETS"
       (Fragment.run REPO_TOP ParallelSafe PARALLEL_SAFE ops
          (fst (Fragment.step REPO_TOP ParallelSafe PARALLEL_SAFE
                  Fragment.ImportRelease p)))
     = Some Release.BOKEHJS_BUCKETS).
Proof.
  split; [reflexivity|]. split; [reflexivity|]. split; [reflexivity|]. split.
  - intros path c. now apply frozen_refuses.
  - intros ops p. apply run_keeps_table.
    cbn [Fragment.step fst]. apply global_bound.
Qed.

(** * Beyond the claims *)

(** ** Registration *)

Lemma find_add_same (name : string) (role : role_fn) (app : registry) :
  find_role name (add_role name role app) = Some role.
Proof.
  induction app as [|[k old] rest IH]; cbn [add_role find_role].
  - now rewrite String.eqb_refl.
  - destruct (String.eqb k name) eqn:E; cbn [find_role]; now rewrite E.
Qed.

Lemma find_add_other (name other : string) (role : role_fn) (app : registry) :
  name <> other ->
  find_role other (add_role name role app) = find_role other app.
Proof.
  intros Hne. induction app as [|[k old] rest IH]; cbn [add_role find_role].
  - apply String.eqb_neq in Hne. now rewrite Hne.
  - destruct (String.eqb k name) eqn:E; cbn [find_role].
    + apply String.eqb_eq in E. subst k.
      apply String.eqb_neq in Hne. now rewrite Hne.
    + now rewrite IH.
Qed.

Lemma add_role_again (name : string) (role : role_fn) (app : registry) :
  find_role name app = Some role -> add_role name role app = app.
Proof.
  induction app as [|[k old] rest IH]; cbn [add_role find_role]; [discriminate|].
  destruct (String.eqb k name).
  - now intros [= ->].
  - intros H. now rewrite (IH H).
Qed.

Ltac find_registered :=
  repeat first
    [ apply find_add_same
    | rewrite find_add_other by (intros Heq; discriminate Heq) ].

Lemma setup_finds REPO_TOP (ParallelSafe : Type) (PARALLEL_SAFE : ParallelSafe)
    (app : registry) :
  let after := fst (setup REPO_TOP ParallelSafe PARALLEL_SAFE app) in
  find_role "bokeh-commit" after = Some bokeh_commit /\
  find_role "bokeh-issue" after = Some bokeh_issue /\
  find_role "bokeh-minpy" after = Some (bokeh_minpy REPO_TOP) /\
  find_role "bokeh-pull" after = Some bokeh_pull /\
  find_role "bokeh-requires" after = Some (bokeh_requires REPO_TOP) /\
  find_role "bokeh-tree" after = Some bokeh_tree.
Proof.
  cbv zeta. unfold setup. cbn [fst].
  repeat split; find_registered.
Qed.

(** X1. After [setup] each of the six names leads to its role, every
    other name leads where it led before, and the value returned is
    [PARALLEL_SAFE]. *)
Theorem setup_registers_six_roles
    REPO_TOP (ParallelSafe : Type) (PARALLEL_SAFE : ParallelSafe) (app : registry) :
  let after := fst (setup REPO_TOP ParallelSafe PARALLEL_SAFE app) in
  snd (setup REPO_TOP ParallelSafe PARALLEL_SAFE app) = PARALLEL_SAFE /\
  find_role "bokeh-commit" after = Some bokeh_commit /\
  find_role "bokeh-issue" after = Some bokeh_issue /\
  find_role "bokeh-minpy" after = Some (bokeh_minpy REPO_TOP) /\
  find_role "bokeh-pull" after = Some bokeh_pull /\
  find_role "bokeh-requires" after = Some (bokeh_requires REPO_TOP) /\
  find_role "bokeh-tree" after = Some bokeh_tree /\
  forall name, ~ In name role_names -> find_role name after = find_role name app.
Proof.
  pose proof (setup_finds REPO_TOP ParallelSafe PARALLEL_SAFE app) as Hfinds.
  cbv zeta in *.
  split; [reflexivity|].
  destruct Hfinds as (Hc & Hi & Hm & Hp & Hr & Ht).
  repeat (split; [assumption|]).
  intros name Hname. unfold role_names in Hname. cbn [In] in Hname.
  unfold setup. cbn [fst].
  rewrite !find_add_other; [reflexivity| | | | | |];
    intros Heq; apply Hname; subst name; tauto.
Qed.

(** X2. Running [setup] on an application that has been set up already
    changes nothing. *)
Theorem setup_twice_is_setup_once
    REPO_TOP (ParallelSafe : Type) (PARALLEL_SAFE : ParallelSafe) (app : registry) :
  setup REPO_TOP ParallelSafe PARALLEL_SAFE
    (fst (setup REPO_TOP ParallelSafe PARALLEL_SAFE app))
  = setup REPO_TOP ParallelSafe PARALLEL_SAFE app.
Proof.
  destruct (setup_finds REPO_TOP ParallelSafe PARALLEL_SAFE app)
    as (Hc & Hi & Hm & Hp & Hr & Ht).
  cbv zeta in *.
  set (after := fst (setup REPO_TOP ParallelSafe PARALLEL_SAFE app)) in *.
  assert (Hafter : setup REPO_TOP ParallelSafe PARALLEL_SAFE app
                   = (after, PARALLEL_SAFE)) by reflexivity.
  rewrite Hafter. unfold setup.
  now rewrite (add_role_again _ _ _ Hc), (add_role_again _ _ _ Hi),
    (add_role_again _ _ _ Hm), (add_role_again _ _ _ Hp),
    (add_role_again _ _ _ Hr), (add_role_again _ _ _ Ht).
Qed.

(** ** Numbers in and out of the numeric-id roles *)

Lemma to_int_normal (n : Z) : norm (Z.to_int n) = Z.to_int n.
Proof. now rewrite <- DecimalZ.to_of, DecimalZ.of_to. Qed.

Lemma to_int_digits (n : Z) (d : uint) :
  Z.to_int n = Pos d \/ Z.to_int n = Neg d -> nb_digits d <> 0.
Proof.
  intros H Hd. apply nb_digits_0 in Hd. subst d.
  pose proof (to_int_normal n) as Hn.
  destruct H as [H|H]; rewrite H in Hn; discriminate Hn.
Qed.

Lemma parse_numeral_signed (m : N) (negative : bool) (d : uint) :
  nb_digits d <> 0 -> Py.exceeds_limit m (nb_digits d) = false ->
  Py.parse_numeral m negative (NilEmpty.string_of_uint d)
  = Returns (Z.of_int (if negative then Neg d else Pos d)).
Proof.
  intros Hd Hlim.
  assert (Hbody :
    match Py.scan_digits Py.NUL (NilEmpty.string_of_uint d) with
    | None => Raises ValueError
    | Some (u, rest) =>
        if Py.exceeds_limit m (nb_digits u) then Raises ValueError
        else if Nat.eqb (nb_digits u) 0 then Raises ValueError
        else match Py.skip_spaces rest with
             | EmptyString =>
                 Returns (Z.of_int (if negative then Neg u else Pos u))
             | _ => Raises ValueError
             end
    end = Returns (Z.of_int (if negative then Neg d else Pos d))).
  { rewrite scan_digits_numeral by reflexivity. rewrite Hlim.
    apply Nat.eqb_neq in Hd. now rewrite Hd. }
  destruct d; exact Hbody.
Qed.

Lemma numeral_nonempty (d : uint) :
  nb_digits d <> 0 -> NilZero.string_of_uint d = NilEmpty.string_of_uint d.
Proof. destruct d; [intros H; now contradiction H | reflexivity ..]. Qed.

(** What [str] prints, [int] reads back, whatever the sign. *)
Lemma int_of_str (m : N) (n : Z) (id : string) :
  Py.str m n = Returns id -> Py.int m id = Returns n.
Proof.
  unfold Py.str, Py.decimal, Py.decimal_digits.
  pose proof (DecimalZ.of_to n) as Hn.
  pose proof (to_int_digits n) as Hdigits.
  destruct (Z.to_int n) as [d|d].
  - specialize (Hdigits d (or_introl eq_refl)).
    destruct (Py.exceeds_limit m (nb_digits d)) eqn:Hlim; [discriminate|].
    intros [= <-]. cbn [NilZero.string_of_int].
    rewrite (numeral_nonempty d Hdigits), <- Hn.
    now apply int_numeral.
  - specialize (Hdigits d (or_intror eq_refl)).
    destruct (Py.exceeds_limit m (nb_digits d)) eqn:Hlim; [discriminate|].
    intros [= <-]. cbn [NilZero.string_of_int].
    rewrite (numeral_nonempty d Hdigits), <- Hn.
    unfold Py.int, Py.TransformDecimalAndSpaceToASCII.
    assert (Hascii : Py.is_ascii (String "-" (NilEmpty.string_of_uint d)) = true)
      by exact (is_ascii_numeral d).
    rewrite Hascii.
    exact (parse_numeral_signed m true d Hdigits Hlim).
Qed.

Lemma decimal_injective (a b : Z) : Py.decimal a = Py.decimal b -> a = b.
Proof.
  intros H.
  assert (Ha : Py.int 0 (Py.decimal a) = Returns a) by (now apply int_of_str).
  assert (Hb : Py.int 0 (Py.decimal b) = Returns b) by (now apply int_of_str).
  rewrite H, Hb in Ha. now injection Ha.
Qed.

(** X3. Every positive number, written as [str] writes it, is taken by
    both numeric-id roles, when the options are ones the node constructor
    takes and none is named [refuri] in any letter case: the issue role
    links to [/issues/] and the pull-request role to [/pull/] followed by
    these very digits. *)
Theorem numeric_roles_accept_decimal
    w name rawtext lineno inliner options content n id :
  (0 < n)%Z -> Py.str (int_max_str_digits w) n = Returns id ->
  accepted options = true -> keeps_refuri options = true ->
  exists issue pull,
    bokeh_issue w name rawtext id lineno inliner options content
      = Returns ([issue], []) /\
    astext issue = "#" ++ id /\
    target issue = Some (Scalar (BOKEH_GH ++ "/issues/" ++ id)) /\
    bokeh_pull w name rawtext id lineno inliner options content
      = Returns ([pull], []) /\
    astext pull = "pull request " ++ id /\
    target pull = Some (Scalar (BOKEH_GH ++ "/pull/" ++ id)).
Proof.
  intros Hpos Hstr Hopt Hkeep.
  pose proof (int_of_str _ _ _ Hstr) as Hint.
  assert (Hid : id = Py.decimal n).
  { rewrite (str_after_int _ _ _ Hint) in Hstr. now injection Hstr. }
  destruct (bokeh_issue_success w name rawtext id lineno inliner options content
              n Hint Hpos Hopt) as (attrs & Hi & Hti).
  destruct (bokeh_pull_success w name rawtext id lineno inliner options content
              n Hint Hpos Hopt) as (attrs' & Hp & Htp).
  rewrite Hi, Hp, Hid. eexists _, _.
  split; [reflexivity|].
  split; [exact (unescape_numbered "#" n eq_refl)|].
  split; [exact (Hti Hkeep)|].
  split; [reflexivity|].
  split; [exact (unescape_numbered "pull request " n eq_refl)|].
  exact (Htp Hkeep).
Qed.

Lemma numeric_roles_accept_decimal_witness :
  exists issue pull,
    bokeh_issue (example_world ">=3.10" []) "bokeh-issue" ":bokeh-issue:`1694`"
      "1694" 3 (example_inliner "3.5.0") None None = Returns ([issue], []) /\
    astext issue = "#" ++ "1694" /\
    target issue = Some (Scalar (BOKEH_GH ++ "/issues/" ++ "1694")) /\
    bokeh_pull (example_world ">=3.10" []) "bokeh-issue" ":bokeh-issue:`1694`"
      "1694" 3 (example_inliner "3.5.0") None None = Returns ([pull], []) /\
    astext pull = "pull request " ++ "1694" /\
    target pull = Some (Scalar (BOKEH_GH ++ "/pull/" ++ "1694")).
Proof.
  apply (numeric_roles_accept_decimal (example_world ">=3.10" []) "bokeh-issue"
           ":bokeh-issue:`1694`" 3 (example_inliner "3.5.0") None None
           1694%Z "1694"); [lia | reflexivity | reflexivity | reflexivity].
Defined.

(** X4. Zero and every negative number, written as [str] writes them, are
    refused by both numeric-id roles whatever the options: each returns a
    problematic marker and one error message, and no link. *)
Theorem numeric_roles_refuse_nonpositive
    w name rawtext lineno inliner options content n id :
  (n <= 0)%Z -> Py.str (int_max_str_digits w) n = Returns id ->
  exists prb_issue msg_issue prb_pull msg_pull,
    bokeh_issue w name rawtext id lineno inliner options content
      = Returns ([prb_issue], [msg_issue]) /\
    is_problematic prb_issue = true /\ level msg_issue = 3%Z /\
    bokeh_pull w name rawtext id lineno inliner options content
      = Returns ([prb_pull], [msg_pull]) /\
    is_problematic prb_pull = true /\ level msg_pull = 3%Z.
Proof.
  intros Hle Hstr.
  pose proof (int_of_str _ _ _ Hstr) as Hint.
  assert (Hbad : forall k, Py.int (int_max_str_digits w) id = Returns k -> (k <= 0)%Z).
  { intros k Hk. rewrite Hint in Hk. now injection Hk as <-. }
  rewrite (bokeh_issue_failure _ _ _ _ _ _ _ _ Hbad).
  rewrite (bokeh_pull_failure _ _ _ _ _ _ _ _ Hbad).
  eexists _, _, _, _. repeat split.
Qed.

Lemma numeric_roles_refuse_nonpositive_witness :
  exists prb_issue msg_issue prb_pull msg_pull,
    bokeh_issue (example_world ">=3.10" []) "bokeh-issue" ":bokeh-issue:`-12`"
      "-12" 3 (example_inliner "3.5.0") None None
      = Returns ([prb_issue], [msg_issue]) /\
    is_problematic prb_issue = true /\ level msg_issue = 3%Z /\
    bokeh_pull (example_world ">=3.10" []) "bokeh-issue" ":bokeh-issue:`-12`"
      "-12" 3 (example_inliner "3.5.0") None None
      = Returns ([prb_pull], [msg_pull]) /\
    is_problematic prb_pull = true /\ level msg_pull = 3%Z.
Proof.
  apply (numeric_roles_refuse_nonpositive (example_world ">=3.10" [])
           "bokeh-issue" ":bokeh-issue:`-12`" 3 (example_inliner "3.5.0")
           None None (-12)%Z "-12"); [lia | reflexivity].
Defined.

(** X5. The links of the numeric-id roles tell numbers apart, when the
    options are ones the node constructor takes and none is named
    [refuri] in any letter case: two texts give the same target, and the
    same visible text, exactly when they read as the same number. *)
Theorem numeric_links_tell_numbers_apart
    w name rawtext1 rawtext2 t1 t2 lineno inliner options content n1 n2 :
  Py.int (int_max_str_digits w) t1 = Returns n1 -> (0 < n1)%Z ->
  Py.int (int_max_str_digits w) t2 = Returns n2 -> (0 < n2)%Z ->
  accepted options = true -> keeps_refuri options = true ->
  exists issue1 issue2 pull1 pull2,
    bokeh_issue w name rawtext1 t1 lineno inliner options content
      = Returns ([issue1], []) /\
    bokeh_issue w name rawtext2 t2 lineno inliner options content
      = Returns ([issue2], []) /\
    bokeh_pull w name rawtext1 t1 lineno inliner options content
      = Returns ([pull1], []) /\
    bokeh_pull w name rawtext2 t2 lineno inliner options content
      = Returns ([pull2], []) /\
    (target issue1 = target issue2 <-> n1 = n2) /\
    (astext issue1 = astext issue2 <-> n1 = n2) /\
    (target pull1 = target pull2 <-> n1 = n2) /\
    (astext pull1 = astext pull2 <-> n1 = n2).
Proof.
  intros Hint1 Hpos1 Hint2 Hpos2 Hopt Hkeep.
  destruct (bokeh_issue_success w name rawtext1 t1 lineno inliner options content
              n1 Hint1 Hpos1 Hopt) as (a1 & -> & Ha1).
  destruct (bokeh_issue_success w name rawtext2 t2 lineno inliner options content
              n2 Hint2 Hpos2 Hopt) as (a2 & -> & Ha2).
  destruct (bokeh_pull_success w name rawtext1 t1 lineno inliner options content
              n1 Hint1 Hpos1 Hopt) as (b1 & -> & Hb1).
  destruct (bokeh_pull_success w name rawtext2 t2 lineno inliner options content
              n2 Hint2 Hpos2 Hopt) as (b2 & -> & Hb2).
  eexists _, _, _, _.
  do 4 (split; [reflexivity|]).
  cbn [target astext map String.concat].
  rewrite (Ha1 Hkeep), (Ha2 Hkeep), (Hb1 Hkeep), (Hb2 Hkeep).
  rewrite !(unescape_numbered "#" _ eq_refl).
  rewrite !(unescape_numbered "pull request " _ eq_refl).
  repeat split; intros H; try (subst n2; reflexivity);
    injection H as H; now apply decimal_injective.
Qed.

Lemma numeric_links_tell_numbers_apart_witness :
  exists issue1 issue2 pull1 pull2,
    bokeh_issue (example_world ">=3.10" []) "bokeh-issue" "`12`" "12" 3
      (example_inliner "3.5.0") None None = Returns ([issue1], []) /\
    bokeh_issue (example_world ">=3.10" []) "bokeh-issue" "`012`" "012" 3
      (example_inliner "3.5.0") None None = Returns ([issue2], []) /\
    bokeh_pull (example_world ">=3.10" []) "bokeh-issue" "`12`" "12" 3
      (example_inliner "3.5.0") None None = Returns ([pull1], []) /\
    bokeh_pull (example_world ">=3.10" []) "bokeh-issue" "`012`" "012" 3
      (example_inliner "3.5.0") None None = Returns ([pull2], []) /\
    (target issue1 = target issue2 <-> 12%Z = 12%Z) /\
    (astext issue1 = astext issue2 <-> 12%Z = 12%Z) /\
    (target pull1 = target pull2 <-> 12%Z = 12%Z) /\
    (astext pull1 = astext pull2 <-> 12%Z = 12%Z).
Proof.
  apply (numeric_links_tell_numbers_apart (example_world ">=3.10" [])
           "bokeh-issue" "`12`" "`012`" "12" "012" 3 (example_inliner "3.5.0")
           None None 12%Z 12%Z);
    [reflexivity | lia | reflexivity | lia | reflexivity | reflexivity].
Defined.



(** ** The link helper and the options *)

Lemma clashes_after_rename (d : dict) (classes : list string) :
  clashes (del "class" (d ++ [("classes", classes)])%list) = clashes d.
Proof.
  unfold clashes.
  rewrite !has_key_del, !has_key_app by reflexivity.
  cbn. now rewrite !orb_false_r.
Qed.

Lemma has_key_del_same (k : string) (d : dict) : has_key k (del k d) = false.
Proof.
  unfold has_key, del. induction d as [|[key v] d IH]; [reflexivity|].
  cbn [filter fst]. destruct (String.eqb key k) eqn:E; cbn [negb]; [exact IH|].
  cbn [existsb fst]. now rewrite E, IH.
Qed.

Lemma spelled_lower_case (k : string) (d : dict) :
  forallb (fun kv => String.eqb (Py.lower (fst kv)) (fst kv)) d = true ->
  spelled k d = has_key k d.
Proof.
  unfold spelled, has_key. induction d as [|[key v] d IH]; [reflexivity|].
  cbn [forallb existsb fst]. intros H. apply andb_true_iff in H as [Hkey H].
  apply String.eqb_eq in Hkey. now rewrite Hkey, (IH H).
Qed.

Lemma lower_case_del (k : string) (d : dict) :
  forallb (fun kv => String.eqb (Py.lower (fst kv)) (fst kv)) d = true ->
  forallb (fun kv => String.eqb (Py.lower (fst kv)) (fst kv)) (del k d) = true.
Proof.
  unfold del. induction d as [|[key v] d IH]; [reflexivity|].
  cbn [forallb filter fst]. intros H. apply andb_true_iff in H as [Hkey H].
  destruct (negb (String.eqb key k)); [|now apply IH].
  cbn [forallb fst]. now rewrite Hkey, (IH H).
Qed.

Lemma del_app (k : string) (d e : dict) :
  del k (d ++ e)%list = (del k d ++ del k e)%list.
Proof. apply filter_app. Qed.

(** X7. For options the node constructor takes, none of them named
    [refuri] in any letter case, the link helper returns a reference
    whose target is the repository address, the path segment and the
    identifier as given, and whose visible text is the kind followed by
    the identifier without its escapes, the whole shown without escapes:
    it never holds a NUL, and when the kind holds none it is the kind
    followed by the unescaped identifier. *)
Theorem link_helper_node
    app rawtext role kind api_type id options :
  accepted options = true -> keeps_refuri options = true ->
  exists node,
    _make_gh_link_node app rawtext role kind api_type id options = Returns node /\
    is_reference node = true /\
    target node = Some (Scalar (BOKEH_GH ++ "/" ++ api_type ++ "/" ++ id)) /\
    astext node = unescape (kind ++ unescape id) /\
    Py.has_char Py.NUL (astext node) = false /\
    (Py.has_char Py.NUL kind = false -> astext node = kind ++ unescape id).
Proof.
  intros Hopt Hkeep. unfold _make_gh_link_node.
  match goal with
  | |- context [bind (set_classes (or_empty ?o)) (fun opts => make_reference ?r ?x ?u opts)] =>
      destruct (reference_accepted o r x u Hopt) as (attrs & -> & Htarget)
  end.
  eexists. split; [reflexivity|]. split; [reflexivity|].
  split; [exact (Htarget Hkeep)|].
  cbn [astext]. rewrite astext_text_children. split; [reflexivity|].
  split; [apply unescape_without_nul_after|].
  intros Hkind. now apply unescape_label.
Qed.

Lemma link_helper_node_witness :
  exists node,
    _make_gh_link_node {| config_version := "3.5.0" |} ":bokeh-commit:`ab\ cd`"
      "commit" "commit " "commit" ("ab" ++ String Py.NUL " cd") None
      = Returns node /\
    is_reference node = true /\
    target node = Some (Scalar (BOKEH_GH ++ "/" ++ "commit" ++ "/"
                                ++ ("ab" ++ String Py.NUL " cd"))) /\
    astext node = unescape ("commit " ++ unescape ("ab" ++ String Py.NUL " cd")) /\
    Py.has_char Py.NUL (astext node) = false /\
    (Py.has_char Py.NUL "commit " = false ->
     astext node = "commit " ++ unescape ("ab" ++ String Py.NUL " cd")).
Proof.
  apply (link_helper_node {| config_version := "3.5.0" |} ":bokeh-commit:`ab\ cd`"
           "commit" "commit " "commit" ("ab" ++ String Py.NUL " cd") None);
    reflexivity.
Defined.

Lemma classes_assigned (refuri : string) (d : dict) (classes : list string) :
  attr_get "classes"
    (element_attributes
       (keywords refuri (del "class" (d ++ [("classes", classes)])%list)))
  = Some (Names classes).
Proof.
  unfold element_attributes, keywords. rewrite del_app, map_app.
  change (del "class" [("classes", classes)]) with [("classes", classes)].
  cbn [map fst snd].
  apply (assign_keywords_last "classes" "classes" (Names classes)
           (("refuri", Scalar refuri)
            :: map (fun kv => (fst kv, Names (snd kv))) (del "class" d)) []);
    reflexivity.
Qed.

Lemma class_unassigned (refuri : string) (d : dict) :
  forallb (fun kv => String.eqb (Py.lower (fst kv)) (fst kv)) d = true ->
  has_key "class" d = false ->
  attr_get "class" (element_attributes (keywords refuri d)) = None.
Proof.
  intros Hlower Hclass. unfold element_attributes, keywords.
  rewrite assign_keywords_other; [reflexivity|].
  cbn [existsb fst]. rewrite spelled_keywords, (spelled_lower_case _ _ Hlower).
  exact Hclass.
Qed.

(** X8. A [class] option reaches the node of the commit role and of the
    tree role under the name [classes], with its value; and when the
    option names are in lower case, the node has no [class] attribute. *)
Theorem class_option_becomes_classes
    w name rawtext text lineno inliner options content :
  accepted options = true ->
  exists commit tree,
    bokeh_commit w name rawtext text lineno inliner options content
      = Returns ([commit], []) /\
    bokeh_tree w name rawtext text lineno inliner options content
      = Returns ([tree], []) /\
    (forall classes, get "class" (or_empty options) = Some classes ->
       attr_get "classes" (attributes_of commit) = Some (Names classes) /\
       attr_get "classes" (attributes_of tree) = Some (Names classes)) /\
    (lower_case_keys options = true ->
       attr_get "class" (attributes_of commit) = None /\
       attr_get "class" (attributes_of tree) = None).
Proof.
  intros Hopt. unfold bokeh_commit, bokeh_tree, _make_gh_link_node.
  destruct (set_classes_accepted options Hopt) as (d & Hset & Hc & _).
  rewrite Hset. cbn [bind]. unfold make_reference. rewrite Hc. cbn [bind].
  eexists _, _. do 2 (split; [reflexivity|]).
  cbn [attributes_of].
  unfold accepted in Hopt. apply andb_true_iff in Hopt as [_ Hboth].
  apply negb_true_iff in Hboth.
  unfold set_classes in Hset. rewrite get_has_key in Hboth.
  unfold lower_case_keys.
  destruct (get "class" (or_empty options)) as [classes|] eqn:Hget.
  - cbn [andb] in Hboth. rewrite Hboth in Hset. injection Hset as <-. split.
    + intros classes' [= <-]. split; apply classes_assigned.
    + intros Hlower.
      assert (Hlower' : forallb (fun kv => String.eqb (Py.lower (fst kv)) (fst kv))
                          (del "class" (or_empty options ++ [("classes", classes)])%list)
                        = true).
      { apply lower_case_del. rewrite forallb_app, Hlower. reflexivity. }
      split; apply (class_unassigned _ _ Hlower'), has_key_del_same.
  - injection Hset as <-. split; [discriminate|].
    intros Hlower.
    assert (Hclass : has_key "class" (or_empty options) = false)
      by (now rewrite get_has_key, Hget).
    split; apply (class_unassigned _ _ Hlower Hclass).
Qed.

Lemma class_option_becomes_classes_witness :
  exists commit tree,
    bokeh_commit (example_world ">=3.10" []) "bokeh-commit" "`bf19bcb`" "bf19bcb"
      4 (example_inliner "3.5.0") (Some [("class", ["sha"; "mono"])]) None
      = Returns ([commit], []) /\
    bokeh_tree (example_world ">=3.10" []) "bokeh-commit" "`bf19bcb`" "bf19bcb"
      4 (example_inliner "3.5.0") (Some [("class", ["sha"; "mono"])]) None
      = Returns ([tree], []) /\
    (forall classes,
       get "class" (or_empty (Some [("class", ["sha"; "mono"])])) = Some classes ->
       attr_get "classes" (attributes_of commit) = Some (Names classes) /\
       attr_get "classes" (attributes_of tree) = Some (Names classes)) /\
    (lower_case_keys (Some [("class", ["sha"; "mono"])]) = true ->
       attr_get "class" (attributes_of commit) = None /\
       attr_get "class" (attributes_of tree) = None).
Proof.
  apply (class_option_becomes_classes (example_world ">=3.10" []) "bokeh-commit"
           "`bf19bcb`" "bf19bcb" 4 (example_inliner "3.5.0")
           (Some [("class", ["sha"; "mono"])]) None).
  reflexivity.
Defined.

(** X9. Options the node constructor does not take make the commit role
    and the tree role raise, for every text: [AssertionError] when
    [class] and [classes] come together, [TypeError] otherwise, a key
    then colliding with a parameter of the call. *)
Theorem link_roles_raise_on_refused_options
    w name rawtext text lineno inliner options content :
  accepted options = false ->
  let d := or_empty options in
  let e := if has_key "class" d && has_key "classes" d
           then AssertionError else TypeError in
  bokeh_commit w name rawtext text lineno inliner options content = Raises e /\
  bokeh_tree w name rawtext text lineno inliner options content = Raises e.
Proof.
  intros Hopt d e. subst e.
  unfold accepted in Hopt. fold d in Hopt.
  unfold bokeh_commit, bokeh_tree, _make_gh_link_node. fold d.
  unfold set_classes. rewrite (get_has_key "class" d) in *.
  destruct (get "class" d) as [classes|].
  - destruct (has_key "classes" d); cbn [andb bind]; [now split|].
    cbn [andb negb] in Hopt. rewrite andb_true_r in Hopt.
    apply negb_false_iff in Hopt.
    unfold make_reference. rewrite clashes_after_rename, Hopt. now split.
  - cbn [andb negb bind] in *. rewrite andb_true_r in Hopt.
    apply negb_false_iff in Hopt.
    unfold make_reference. rewrite Hopt. now split.
Qed.

Lemma link_roles_raise_on_refused_options_witness :
  let d := or_empty (Some [("class", ["a"]); ("classes", ["b"])]) in
  let e := if has_key "class" d && has_key "classes" d
           then AssertionError else TypeError in
  bokeh_commit (example_world ">=3.10" []) "bokeh-commit" "`bf19bcb`" "bf19bcb"
    4 (example_inliner "3.5.0") (Some [("class", ["a"]); ("classes", ["b"])]) None
    = Raises e /\
  bokeh_tree (example_world ">=3.10" []) "bokeh-commit" "`bf19bcb`" "bf19bcb"
    4 (example_inliner "3.5.0") (Some [("class", ["a"]); ("classes", ["b"])]) None
    = Raises e.
Proof.
  apply (link_roles_raise_on_refused_options (example_world ">=3.10" [])
           "bokeh-commit" "`bf19bcb`" "bf19bcb" 4 (example_inliner "3.5.0")
           (Some [("class", ["a"]); ("classes", ["b"])]) None).
  reflexivity.
Defined.

(** ** Faults of the descriptor *)

(** X10. The minimum-version role raises when the descriptor is missing
    ([FileNotFoundError]), is no TOML ([TomlDecodeError]), or lacks the
    [project] table or its [requires-python] key ([KeyError]); whenever
    it returns, it returns one text node and no message. *)
Theorem minpy_role_faults
    REPO_TOP w name rawtext text lineno inliner options content :
  let path := Py.join REPO_TOP "pyproject.toml" in
  let r := bokeh_minpy REPO_TOP w name rawtext text lineno inliner options content in
  (files w path = NoSuchFile -> r = Raises FileNotFoundError) /\
  (files w path = NotToml -> r = Raises TomlDecodeError) /\
  (forall doc, files w path = Toml doc -> project doc = None ->
     r = Raises KeyError) /\
  (forall doc table, files w path = Toml doc -> project doc = Some table ->
     requires_python table = None -> r = Raises KeyError) /\
  (forall nodes msgs, r = Returns (nodes, msgs) ->
     msgs = [] /\ exists s, nodes = [Text s]).
Proof.
  cbv zeta. unfold bokeh_minpy, toml_load.
  split; [now intros ->|]. split; [now intros ->|].
  split; [intros doc -> Hp; cbn; now rewrite Hp|].
  split; [intros doc table -> Hp Hk; cbn; rewrite Hp; cbn; now rewrite Hk|].
  intros nodes msgs.
  destruct (files w (Py.join REPO_TOP "pyproject.toml")) as [| |doc];
    cbn [bind]; try discriminate.
  destruct (project doc) as [table|]; cbn [bind getitem]; [|discriminate].
  destruct (requires_python table) as [requires|]; cbn [bind getitem];
    [|discriminate].
  intros [= <- <-]. eauto.
Qed.

(** X11. The dependencies role raises when the descriptor is missing
    ([FileNotFoundError]), is no TOML ([TomlDecodeError]), or lacks the
    [project] table or its [dependencies] key ([KeyError]); a descriptor
    that declares no dependency gives an empty list, not a fault; and
    whenever the role returns, it returns one bulleted list and no
    message. *)
Theorem requires_role_faults
    REPO_TOP w name rawtext text lineno inliner options content :
  let path := Py.join REPO_TOP "pyproject.toml" in
  let r := bokeh_requires REPO_TOP w name rawtext text lineno inliner options
             content in
  (files w path = NoSuchFile -> r = Raises FileNotFoundError) /\
  (files w path = NotToml -> r = Raises TomlDecodeError) /\
  (forall doc, files w path = Toml doc -> project doc = None ->
     r = Raises KeyError) /\
  (forall doc table, files w path = Toml doc -> project doc = Some table ->
     dependencies table = None -> r = Raises KeyError) /\
  (forall doc table, files w path = Toml doc -> project doc = Some table ->
     dependencies table = Some [] -> r = Returns ([bullet_list "" []], [])) /\
  (forall nodes msgs, r = Returns (nodes, msgs) ->
     msgs = [] /\ exists items, nodes = [bullet_list "" items]).
Proof.
  cbv zeta. unfold bokeh_requires, toml_load.
  split; [now intros ->|]. split; [now intros ->|].
  split; [intros doc -> Hp; cbn; now rewrite Hp|].
  split; [intros doc table -> Hp Hk; cbn; rewrite Hp; cbn; now rewrite Hk|].
  split; [intros doc table -> Hp Hk; cbn; rewrite Hp; cbn; now rewrite Hk|].
  intros nodes msgs.
  destruct (files w (Py.join REPO_TOP "pyproject.toml")) as [| |doc];
    cbn [bind]; try discriminate.
  destruct (project doc) as [table|]; cbn [bind getitem]; [|discriminate].
  destruct (dependencies table) as [deps|]; cbn [bind getitem]; [|discriminate].
  rewrite bullet_list_of. intros [= <- <-]. eauto.
Qed.

(** ** The tag of the tree role *)

(** X12. The tag in a tree link never holds a hyphen: with options the
    node constructor takes, none of them named [refuri] in any letter
    case, the target is the repository address, [/tree/], a tag without
    hyphen, [/] and the path. *)
Theorem tree_tag_without_hyphen
    w name rawtext p lineno inliner options content :
  accepted options = true -> keeps_refuri options = true ->
  exists node tag,
    bokeh_tree w name rawtext p lineno inliner options content
      = Returns ([node], []) /\
    target node = Some (Scalar (BOKEH_GH ++ "/tree/" ++ tag ++ "/" ++ p)) /\
    Py.has_char "-" tag = false.
Proof.
  intros Hopt Hkeep. unfold bokeh_tree.
  destruct (set_classes_accepted options Hopt) as (d & -> & Hc & Hs).
  cbn [bind]. unfold make_reference. rewrite Hc. cbn [bind].
  eexists _, (if Py.contains (config_version (app_of inliner)) "-"
              then "main" else config_version (app_of inliner)).
  split; [reflexivity|]. split.
  - cbn [target]. apply target_kept. rewrite Hs.
    unfold keeps_refuri in Hkeep. now apply negb_true_iff in Hkeep.
  - rewrite contains_char.
    destruct (Py.has_char "-" (config_version (app_of inliner))) eqn:E;
      [reflexivity | exact E].
Qed.

Lemma tree_tag_without_hyphen_witness :
  exists node tag,
    bokeh_tree (example_world ">=3.10" []) "bokeh-tree" ":bokeh-tree:`src/bokeh`"
      "src/bokeh" 40 (example_inliner "3.5.0-rc.1") None None
      = Returns ([node], []) /\
    target node = Some (Scalar (BOKEH_GH ++ "/tree/" ++ tag ++ "/" ++ "src/bokeh")) /\
    Py.has_char "-" tag = false.
Proof.
  apply (tree_tag_without_hyphen (example_world ">=3.10" []) "bokeh-tree"
           ":bokeh-tree:`src/bokeh`" "src/bokeh" 40 (example_inliner "3.5.0-rc.1")
           None None); reflexivity.
Defined.

(** ** The digit limit *)

Lemma nb_digits_ones (digits : nat) : nb_digits (ones digits) = digits.
Proof.
  induction digits as [|k IH]; [reflexivity|].
  change (ones (S k)) with (D1 (ones k)). cbn [nb_digits]. now rewrite IH.
Qed.

Lemma int_over_limit (m : N) (d : uint) :
  Py.exceeds_limit m (nb_digits d) = true ->
  Py.int m (NilEmpty.string_of_uint d) = Raises ValueError.
Proof.
  intros Hlim. unfold Py.int, Py.TransformDecimalAndSpaceToASCII.
  rewrite is_ascii_numeral. unfold Py.PyLong_FromString.
  assert (Hbody :
    match Py.scan_digits Py.NUL (NilEmpty.string_of_uint d) with
    | None => Raises ValueError
    | Some (u, rest) =>
        if Py.exceeds_limit m (nb_digits u) then Raises ValueError
        else if Nat.eqb (nb_digits u) 0 then Raises ValueError
        else match Py.skip_spaces rest with
             | EmptyString => Returns (Z.of_int (Pos u))
             | _ => Raises ValueError
             end
    end = Raises ValueError).
  { rewrite scan_digits_numeral by reflexivity. now rewrite Hlim. }
  destruct d; exact Hbody.
Qed.

(** X13. A run of decimal digits longer than the interpreter's limit
    allows is refused by the issue role like any text that is no number.
    With the limit switched off the same text is a link when the number
    it writes is positive, and is refused still when that number is
    zero. *)
Theorem issue_role_digit_limit
    w name rawtext lineno inliner options content (d : uint) :
  Py.exceeds_limit (int_max_str_digits w) (nb_digits d) = true ->
  accepted options = true ->
  let t := NilEmpty.string_of_uint d in
  (exists prb msg,
     bokeh_issue w name rawtext t lineno inliner options content
       = Returns ([prb], [msg]) /\ is_problematic prb = true) /\
  ((0 < Z.of_int (Pos d))%Z ->
   exists node,
     bokeh_issue (with_limit 0 w) name rawtext t lineno inliner options content
       = Returns ([node], []) /\ is_reference node = true) /\
  (Z.of_int (Pos d) = 0%Z ->
   exists prb msg,
     bokeh_issue (with_limit 0 w) name rawtext t lineno inliner options content
       = Returns ([prb], [msg]) /\ is_problematic prb = true).
Proof.
  intros Hlim Hopt t. subst t.
  assert (Hd : nb_digits d <> 0).
  { intros H0. rewrite H0 in Hlim. unfold Py.exceeds_limit in Hlim.
    rewrite andb_false_r in Hlim. discriminate Hlim. }
  assert (Hint : Py.int (int_max_str_digits (with_limit 0 w))
                   (NilEmpty.string_of_uint d)
                 = Returns (Z.of_int (Pos d))).
  { apply int_numeral; [exact Hd | reflexivity]. }
  split; [|split].
  - assert (Hbad : forall n,
              Py.int (int_max_str_digits w) (NilEmpty.string_of_uint d)
              = Returns n -> (n <= 0)%Z).
    { intros n Hn. rewrite (int_over_limit _ _ Hlim) in Hn. discriminate Hn. }
    rewrite (bokeh_issue_failure _ _ _ _ _ _ _ _ Hbad). eauto.
  - intros Hpos.
    destruct (bokeh_issue_success (with_limit 0 w) name rawtext _ lineno inliner
                options content _ Hint Hpos Hopt) as (attrs & -> & _).
    eauto.
  - intros Hzero.
    assert (Hbad : forall n,
              Py.int (int_max_str_digits (with_limit 0 w))
                (NilEmpty.string_of_uint d) = Returns n -> (n <= 0)%Z).
    { intros n Hn. rewrite Hint in Hn.
      assert (Hn' : n = Z.of_int (Pos d)) by congruence.
      rewrite Hn', Hzero. apply Z.le_refl. }
    rewrite (bokeh_issue_failure _ _ _ _ _ _ _ _ Hbad). eauto.
Qed.

Lemma issue_role_digit_limit_witness :
  let t := NilEmpty.string_of_uint (ones 4301) in
  (exists prb msg,
     bokeh_issue (example_world ">=3.10" []) "bokeh-issue" "`1...1`" t 3
       (example_inliner "3.5.0") None None
       = Returns ([prb], [msg]) /\ is_problematic prb = true) /\
  ((0 < Z.of_int (Pos (ones 4301)))%Z ->
   exists node,
     bokeh_issue (with_limit 0 (example_world ">=3.10" [])) "bokeh-issue" "`1...1`"
       t 3 (example_inliner "3.5.0") None None
       = Returns ([node], []) /\ is_reference node = true) /\
  (Z.of_int (Pos (ones 4301)) = 0%Z ->
   exists prb msg,
     bokeh_issue (with_limit 0 (example_world ">=3.10" [])) "bokeh-issue" "`1...1`"
       t 3 (example_inliner "3.5.0") None None
       = Returns ([prb], [msg]) /\ is_problematic prb = true).
Proof.
  apply (issue_role_digit_limit (example_world ">=3.10" []) "bokeh-issue"
           "`1...1`" 3 (example_inliner "3.5.0") None None (ones 4301));
    [vm_compute; reflexivity | reflexivity].
Defined.
